(** * jsa_proc: job claiming, execution and failure containment

    A shallow embedding of the job runner ([action/run.py]), the command-line
    driver of the poller ([scripts/state_machine_jac.py]), the error-summary
    route ([web/flask_app.py], [web/error_summary.py]) and the raw-ingestion
    wrapper ([cadc/rawingest.py]).

    Python code that mutates the shared job store, writes to the process
    logger and may raise is written in a state-and-exception monad whose
    state survives a raise, as it does in Python. *)

From Stdlib Require Import Ascii.
From stdpp Require Import gmap strings list sorting pretty.

Local Open Scope string_scope.
Local Open Scope Z_scope.
Local Open Scope list_scope.

(** ** Python values that the drivers test for truth *)

Module Py.

#[local] Set Warnings "-register-all".
Inductive value :=
| VNone
| VBool (b : bool)
| VInt (n : Z)
| VStr (s : string)
| VList (l : list value).

(** [bool(v)]: what [if not v] tests. *)
Definition truthy (v : value) : bool :=
  match v with
  | VNone => false
  | VBool b => b
  | VInt n => negb (Z.eqb n 0)
  | VStr s => negb (String.eqb s "")
  | VList l => match l with [] => false | _ => true end
  end.

(** ['%i' % n] for an integer. *)
Definition fmt_i (n : Z) : string := pretty n.

(** [posixpath.join(a, b)]. *)
Definition ends_with_slash (a : string) : bool :=
  String.prefix "/" (String.rev a).

Definition path_join (a b : string) : string :=
  if String.prefix "/" b then b
  else if bool_decide (a = "") || ends_with_slash a then a +:+ b
  else a +:+ "/" +:+ b.

End Py.

(** ** Exceptions *)

Inductive exn_class :=
| NoRowsError
| JSAProcError
| CalledProcessError
| TypeError
| OtherError (name : string).

Record exn := Raise { exn_cls : exn_class; exn_msg : string }.

#[global] Instance exn_class_eq_dec : EqDecision exn_class.
Proof. solve_decision. Defined.

Definition class_name (c : exn_class) : string :=
  match c with
  | NoRowsError => "NoRowsError"
  | JSAProcError => "JSAProcError"
  | CalledProcessError => "CalledProcessError"
  | TypeError => "TypeError"
  | OtherError n => n
  end.

(** ** The process logger *)

Inductive level := DEBUG | INFO | WARNING | LERROR.

#[global] Instance level_eq_dec : EqDecision level.
Proof. solve_decision. Defined.

Definition log_record : Type := level * string.

(** ** The job store *)

(** Modelled from the spec: the lifecycle enumeration of [jsa_proc.state]
    (the module is not part of the sources at hand).  The spec names
    [WAITING], [RUNNING], [PROCESSED] and [ERROR]; the queue-phase and
    archival states it leaves unnamed are carried by [OtherState]. *)
Inductive JSAProcState :=
| WAITING
| RUNNING
| PROCESSED
| ERROR
| OtherState (name : string).

#[global] Instance JSAProcState_eq_dec : EqDecision JSAProcState.
Proof. solve_decision. Defined.

Record Job := mkJob {
  state : JSAProcState;
  location : string;
  mode : string;
  parameters : string;
  priority : Z
}.

Definition set_state (s : JSAProcState) (j : Job) : Job :=
  {| state := s; location := location j; mode := mode j;
     parameters := parameters j; priority := priority j |}.

Record LogEntry := mkLog {
  log_job : Z;
  log_state_prev : JSAProcState;
  log_state_new : JSAProcState;
  log_message : string
}.

(** The tables of the store: jobs keyed by id, the output files recorded per
    job, and the append-only log. *)
Record DB := mkDB {
  jobs : gmap Z Job;
  output_file : gmap Z (list string);
  log : list LogEntry
}.

Module Store.

(** Modelled from the spec: [change_state] of the job store client
    ([jsa_proc.db], absent from the sources at hand), spec section 4.2 and
    6.  If and only if the job's current state equals the expected prior
    state, set the state and append the message to the log; otherwise
    change nothing and signal the conflict ([NoRowsError], zero rows
    affected).  With no expected prior state the update is unconditional;
    an id with no row affects zero rows. *)
Definition change_state (job_id : Z) (newstate : JSAProcState)
    (message : string) (state_prev : option JSAProcState) (d : DB)
    : exn + DB :=
  match jobs d !! job_id with
  | Some j =>
      if match state_prev with
         | None => true
         | Some p => bool_decide (state j = p)
         end
      then inr {| jobs := <[job_id := set_state newstate j]> (jobs d);
                  output_file := output_file d;
                  log := log d ++ [mkLog job_id (state j) newstate message] |}
      else inl (Raise NoRowsError
                  ("change_state: no rows for job " +:+ Py.fmt_i job_id))
  | None => inl (Raise NoRowsError
                  ("change_state: no rows for job " +:+ Py.fmt_i job_id))
  end.

(** Modelled from the spec: [get_job(id) -> Job]; an id with no row is
    reported as [NoRowsError]. *)
Definition get_job (job_id : Z) (d : DB) : exn + Job :=
  match jobs d !! job_id with
  | Some j => inr j
  | None => inl (Raise NoRowsError
                  ("get_job: no rows for job " +:+ Py.fmt_i job_id))
  end.

(** Modelled from the spec: [set_output_files(id, sequence<filename>)]
    replaces the files recorded for the job. *)
Definition set_output_files (job_id : Z) (files : list string) (d : DB)
    : DB :=
  {| jobs := jobs d;
     output_file := <[job_id := files]> (output_file d);
     log := log d |}.

(** Modelled from the spec: the job selector, spec section 4.1.  Filter by
    state and location; when prioritised order by priority descending, the
    id ascending being the stable secondary key; keep at most [number]. *)
Definition by_id (a b : Z * Job) : Prop := (a.1 ≤ b.1)%Z.
Definition by_priority (a b : Z * Job) : Prop :=
  (priority b.2 < priority a.2 ∨
   (priority a.2 = priority b.2 ∧ a.1 ≤ b.1))%Z.

#[global] Instance by_id_dec a b : Decision (by_id a b).
Proof. unfold by_id. apply _. Defined.
#[global] Instance by_priority_dec a b : Decision (by_priority a b).
Proof. unfold by_priority. apply _. Defined.

Definition find_jobs (st : JSAProcState) (loc : string)
    (prioritize : bool) (number : nat) (sort : bool) (d : DB)
    : list (Z * Job) :=
  let rows := filter (λ r, state r.2 = st ∧ location r.2 = loc)
                     (map_to_list (jobs d)) in
  let rows := if sort then merge_sort by_id rows else rows in
  let rows := if prioritize then merge_sort by_priority rows else rows in
  take number rows.

End Store.

Arguments Store.find_jobs : simpl never.
Arguments Store.change_state : simpl never.

(** ** The world a worker acts on, and the monad of its code *)

(** Calls that leave the process, in the order they are made.  A call is
    recorded when it is made, whether it then succeeds or raises:
    [EvOpen] is the attempt to open a file and [EvClose] follows only when
    it was opened; [EvCheckCall] is a command that ran, with its exit
    status, and [EvCannotStart] one that could not be started.
    [EvMakeScratchDir] is recorded with the directory that was made. *)
Inductive event :=
| EvChangeState (job_id : Z) (newstate : JSAProcState) (message : string)
                (state_prev : option JSAProcState)
| EvSetOutputFiles (job_id : Z) (files : list string)
| EvPipeline (job_id : Z) (input_file_list mode parameters : string)
| EvMakeScratchDir (kind path : string)
| EvMakeDirs (path : string)
| EvOpen (path : string)
| EvClose (path : string)
| EvCheckCall (command : list string) (cwd : option string) (status : Z)
| EvCannotStart (command : list string) (cwd : option string)
| EvRmTree (path : string).

Record World := mkWorld {
  db : DB;
  logged : list log_record;
  calls : list event
}.

Definition M (A : Type) : Type := World → (exn + A) * World.

Definition ret {A} (a : A) : M A := λ w, (inr a, w).
Definition raise {A} (e : exn) : M A := λ w, (inl e, w).
Definition bind {A B} (c : M A) (k : A → M B) : M B :=
  λ w, match c w with
       | (inr a, w') => k a w'
       | (inl e, w') => (inl e, w')
       end.

(** [try: c  except cls: ...]: an exception of class [cls] is handed to the
    continuation, any other keeps propagating. *)
Definition try_except {A} (cls : exn_class) (c : M A) : M (exn + A) :=
  λ w, match c w with
       | (inr a, w') => (inr (inr a), w')
       | (inl e, w') =>
           if bool_decide (exn_cls e = cls) then (inr (inl e), w')
           else (inl e, w')
       end.

#[global] Instance M_ret : MRet M := @ret.
#[global] Instance M_bind : MBind M := λ A B k c, bind c k.

Definition emit (l : level) (msg : string) : M unit :=
  λ w, (inr tt, {| db := db w; logged := logged w ++ [(l, msg)];
                   calls := calls w |}).

Definition record_call (e : event) : M unit :=
  λ w, (inr tt, {| db := db w; logged := logged w; calls := calls w ++ [e] |}).

Definition with_db (f : DB → DB) : M unit :=
  λ w, (inr tt, {| db := f (db w); logged := logged w; calls := calls w |}).

Definition db_try {A} (f : DB → exn + A) : M A :=
  λ w, (f (db w), w).

Definition db_update (f : DB → exn + DB) : M unit :=
  λ w, match f (db w) with
       | inr d => (inr tt, {| db := d; logged := logged w; calls := calls w |})
       | inl e => (inl e, w)
       end.

Definition lift_result {A} (r : exn + A) : M A := λ w, (r, w).

(** The store client as the worker calls it. *)
Definition db_change_state (job_id : Z) (newstate : JSAProcState)
    (message : string) (state_prev : option JSAProcState) : M unit :=
  record_call (EvChangeState job_id newstate message state_prev) ;;
  db_update (Store.change_state job_id newstate message state_prev).

Definition db_get_job (job_id : Z) : M Job := db_try (Store.get_job job_id).

Definition db_set_output_files (job_id : Z) (files : list string) : M unit :=
  record_call (EvSetOutputFiles job_id files) ;;
  with_db (Store.set_output_files job_id files).

Definition db_find_jobs (st : JSAProcState) (loc : string)
    (prioritize : bool) (number : nat) (sort : bool) : M (list (Z * Job)) :=
  λ w, (inr (Store.find_jobs st loc prioritize number sort (db w)), w).

(** ** What the worker's surroundings decide

    The host name, the layout of shared storage, the external pipeline and
    the listing of its products are not part of the runner; they enter as
    an environment.  [others_act] is what other processes (competing
    workers, an operator at the dashboard) do to the shared store while this
    worker blocks in the pipeline. *)
Record Env := mkEnv {
  gethostname : string;
  get_input_dir : Z → string;
  path_exists : string → bool;
  jsawrapdr_run : Z → string → string → string → exn + string;
  others_act : DB → DB;
  get_output_files : Z → exn + list string
}.

Section Runner.

Variable env : Env.

Definition call_jsawrapdr_run (job_id : Z)
    (input_file_list mode parameters : string) : M string :=
  record_call (EvPipeline job_id input_file_list mode parameters) ;;
  with_db (others_act env) ;;
  lift_result (jsawrapdr_run env job_id input_file_list mode parameters).

Definition msg_about_to_run (job_id : Z) : string :=
  "About to run job " +:+ Py.fmt_i job_id.
Definition msg_claim : string :=
  "Job is about to be run on host " +:+ gethostname env.
Definition msg_not_waiting (job_id : Z) : string :=
  "Job " +:+ Py.fmt_i job_id +:+ " cannot be run because it is not waiting".
Definition msg_no_input (input_file_list : string) (job_id : Z) : string :=
  "Input file list " +:+ input_file_list +:+ " not found for job_id "
  +:+ Py.fmt_i job_id.
Definition msg_launch (mode parameters : string) : string :=
  "Launching jsawrapdr: mode=" +:+ mode +:+ ", parameters=" +:+ parameters.
Definition msg_processed : string := "Job has been sucessfully processed".
Definition msg_done (job_id : Z) : string :=
  "Done running job " +:+ Py.fmt_i job_id.

Definition input_file_list_of (job_id : Z) : string :=
  Py.path_join (get_input_dir env job_id) "input_files_job.lis".

(** The part of [run_a_job] after the claim has succeeded. *)
Definition run_claimed (job_id : Z) : M (option Z) :=
  let input_file_list := input_file_list_of job_id in
  (if path_exists env input_file_list then mret tt
   else raise (Raise JSAProcError (msg_no_input input_file_list job_id))) ;;
  job ← db_get_job job_id ;
  emit DEBUG (msg_launch (mode job) (parameters job)) ;;
  _ ← call_jsawrapdr_run job_id input_file_list (mode job) (parameters job) ;
  emit DEBUG "Preparing list of output files" ;;
  output_files ← lift_result (get_output_files env job_id) ;
  emit DEBUG "Storing list of output files" ;;
  db_set_output_files job_id output_files ;;
  db_change_state job_id PROCESSED msg_processed (Some RUNNING) ;;
  emit INFO (msg_done job_id) ;;
  mret (Some job_id).

Definition claim (job_id : Z) (force : bool) : M unit :=
  db_change_state job_id RUNNING msg_claim
    (if force then None else Some WAITING).

(** The body of [run_a_job], before the decorator is applied.  A plain
    [return] yields [None]. *)
Definition run_a_job_body (job_id : Z) (force : bool) : M (option Z) :=
  emit INFO (msg_about_to_run job_id) ;;
  claimed ← try_except NoRowsError (claim job_id force) ;
  match claimed with
  | inl _ => emit LERROR (msg_not_waiting job_id) ;; mret None
  | inr _ => run_claimed job_id
  end.

(** Modelled from the spec: the entry the wrapper writes to the job's log,
    spec section 4.4 (a): the failure's category and its description. *)
Definition msg_failure (e : exn) : string :=
  class_name (exn_cls e) +:+ ": " +:+ exn_msg e.

(** Modelled from the spec: [ErrorDecorator] of [jsa_proc.action.decorators]
    (absent from the sources at hand), spec section 4.4.  On success the
    result passes through unchanged.  On any exception that reaches the
    wrapper the failure goes into the job's log with an unconditional
    transition to [ERROR], and the exception is absorbed: the caller gets
    [None].  Only when the store cannot record that transition does the
    store's own failure surface (spec section 7). *)
Definition ErrorDecorator (f : Z → bool → M (option Z))
    (job_id : Z) (force : bool) : M (option Z) :=
  λ w, match f job_id force w with
       | (inr r, w') => (inr r, w')
       | (inl e, w') =>
           (db_change_state job_id ERROR (msg_failure e) None ;; mret None) w'
       end.

Definition run_a_job : Z → bool → M (option Z) :=
  ErrorDecorator run_a_job_body.

(** [not job_id] holds for [None] and for [0]. *)
Definition no_job_id (job_id : option Z) : bool :=
  match job_id with
  | None => true
  | Some n => Z.eqb n 0
  end.

Definition run_job (job_id : option Z) (force : bool) : M unit :=
  if no_job_id job_id then
    let force := false in
    emit DEBUG "Looking for a job to run" ;;
    found ← db_find_jobs WAITING "JAC" true 1%nat true ;
    match found with
    | j :: _ => run_a_job j.1 force ;; mret tt
    | [] => emit WARNING "Did not find a job to run!" ;; mret tt
    end
  else
    run_a_job (default 0 job_id) force ;; mret tt.

End Runner.

Arguments input_file_list_of : simpl never.
Arguments msg_claim : simpl never.
Arguments msg_no_input : simpl never.
Arguments msg_launch : simpl never.
Arguments msg_about_to_run : simpl never.
Arguments msg_not_waiting : simpl never.
Arguments msg_done : simpl never.
Arguments msg_failure : simpl never.

(** ** The command-line driver of the poller
       ([scripts/state_machine_jac.py]) *)

Module Driver.

(** How a script run as [__main__] ends, and the status the interpreter
    hands to the operating system. *)
Inductive script_end :=
| Finished
| SysExit (code : Z)
| Uncaught (e : exn).

Definition exit_status (s : script_end) : Z :=
  match s with
  | Finished => 0
  | SysExit code => code
  | Uncaught _ => 1
  end.

Section Script.

(** [JSAProcStateMachine.poll_jac_jobs] is not among the sources at hand:
    the driver is stated for any poller, given as what it returns or raises
    on the configured store and the store it leaves. *)
Variable poll_jac_jobs : DB → (exn + Py.value) * DB.

(** The script from the parsed arguments on: [verbose] is the [-v] flag,
    [d] the store [get_database()] connects to. *)
Definition state_machine_jac (verbose : bool) (d : DB)
    : script_end * level * DB :=
  let logging_level := if verbose then DEBUG else INFO in
  match poll_jac_jobs d with
  | (inr status, d') =>
      if negb (Py.truthy status) then (SysExit 1, logging_level, d')
      else (Finished, logging_level, d')
  | (inl e, d') => (Uncaught e, logging_level, d')
  end.

Definition exit_code (verbose : bool) (d : DB) : Z :=
  exit_status (state_machine_jac verbose d).1.1.

End Script.

End Driver.

(** ** The error-summary route
       ([web/flask_app.py], [web/error_summary.py]) *)

Module Web.

(** Arguments as the route passes them. *)
Inductive arg :=
| ADatabase (d : DB)
| AQuery (v : option string).

(** A Python function with plain named parameters: no defaults, no
    starred parameters. *)
Record pyfun (A : Type) := mkFun {
  fun_name : string;
  fun_params : list string;
  fun_body : list (string * arg) → exn + A
}.
Arguments mkFun {A}.
Arguments fun_name {A}.
Arguments fun_params {A}.
Arguments fun_body {A}.

Definition squote (s : string) : string := "'" +:+ s +:+ "'".

Definition unexpected_keyword (name k : string) : exn :=
  Raise TypeError
    (name +:+ "() got an unexpected keyword argument " +:+ squote k).
Definition multiple_values (name k : string) : exn :=
  Raise TypeError
    (name +:+ "() got multiple values for argument " +:+ squote k).
Definition too_many_positional (name : string) : exn :=
  Raise TypeError (name +:+ "() takes too many positional arguments").
Definition missing_argument (name k : string) : exn :=
  Raise TypeError
    (name +:+ "() missing required positional argument " +:+ squote k).

Definition is_bound (k : string) (bound : list (string * arg)) : bool :=
  bool_decide (k ∈ bound.*1).

(** Keywords are matched against the parameter names in the order they are
    written at the call. *)
Fixpoint bind_keywords (name : string) (params : list string)
    (bound : list (string * arg)) (kwargs : list (string * arg))
    : exn + list (string * arg) :=
  match kwargs with
  | [] => inr bound
  | (k, v) :: rest =>
      if negb (bool_decide (k ∈ params)) then inl (unexpected_keyword name k)
      else if is_bound k bound then inl (multiple_values name k)
      else bind_keywords name params (bound ++ [(k, v)]) rest
  end.

Definition first_unbound (params : list string)
    (bound : list (string * arg)) : option string :=
  head (filter (λ k, is_bound k bound = false) params).

(** A call with positional and keyword arguments: bind them to the
    parameters, then run the body. *)
Definition call {A} (f : pyfun A) (args : list arg)
    (kwargs : list (string * arg)) : exn + A :=
  if decide (length (fun_params f) < length args)%nat
  then inl (too_many_positional (fun_name f))
  else
    match bind_keywords (fun_name f) (fun_params f)
            (zip (fun_params f) args) kwargs with
    | inl e => inl e
    | inr bound =>
        match first_unbound (fun_params f) bound with
        | Some k => inl (missing_argument (fun_name f) k)
        | None => fun_body f bound
        end
    end.

(** Modelled from the spec: [find_errors_logs(location)] of the job store
    client (absent from the sources at hand), spec section 6: a mapping
    from the id of each job in [ERROR] at the location to its log
    entries. *)
Definition find_errors_logs (loc : string) (d : DB)
    : list (Z * list LogEntry) :=
  (λ r : Z * Job, (r.1, filter (λ l, log_job l = r.1) (log d)))
    <$> filter (λ r : Z * Job, state r.2 = ERROR ∧ location r.2 = loc)
          (map_to_list (jobs d)).

Record summary := mkSummary {
  title : string;
  job_summary_dict : list (string * list (Z * list LogEntry))
}.

Definition locations : list string := ["JAC"; "CADC"].

(** [def prepare_error_summary(db)]. *)
Definition prepare_error_summary : pyfun summary :=
  mkFun "prepare_error_summary" ["db"]
    (λ bound,
       match bound with
       | [(_, ADatabase d)] =>
           inr {| title := "Errors in JSA Processing Jobs";
                  job_summary_dict :=
                    (λ l, (l, find_errors_logs l d)) <$> locations |}
       | _ => inl (Raise TypeError "db is not a database")
       end).

(** [request.args.get(key, None)]. *)
Definition args_get (request_args : list (string * string)) (key : string)
    : option string :=
  snd <$> head (filter (λ kv, kv.1 = key) request_args).

(** The handler of [/error_summary/], as the route calls it. *)
Definition error_summary (d : DB) (request_args : list (string * string))
    : exn + summary :=
  call prepare_error_summary [ADatabase d]
    [("filtering", AQuery (args_get request_args "filtering"));
     ("chosentask", AQuery (args_get request_args "chosentask"));
     ("extrafilter", AQuery (args_get request_args "extrafilter"))].

End Web.

(** ** Raw ingestion of an observation ([cadc/rawingest.py]) *)

Module RawIngest.

(** [\d] on a byte string. *)
Definition is_digit (c : ascii) : bool :=
  let n := Ascii.N_of_ascii c in (48 <=? n)%N && (n <=? 57)%N.

Fixpoint all_digits (s : string) : bool :=
  match s with
  | EmptyString => true
  | String c s' => is_digit c && all_digits s'
  end.

(** [n] digits at the head of [s], and what follows them. *)
Fixpoint take_digits (n : nat) (s : string) : option (string * string) :=
  match n with
  | O => Some (EmptyString, s)
  | S n' =>
      match s with
      | String c s' =>
          if is_digit c then
            match take_digits n' s' with
            | Some (d, rest) => Some (String c d, rest)
            | None => None
            end
          else None
      | EmptyString => None
      end
  end.

(** The pattern [_(\d{8})T] matched at the head of [s]; the group. *)
Definition match_here (s : string) : option string :=
  match s with
  | String "_"%char s' =>
      match take_digits 8 s' with
      | Some (d, String "T"%char _) => Some d
      | _ => None
      end
  | _ => None
  end.

(** [obsid_date.search(obsid)]: the leftmost match; [m.group(1)]. *)
Fixpoint obsid_date_search (s : string) : option string :=
  match match_here s with
  | Some d => Some d
  | None =>
      match s with
      | String _ s' => obsid_date_search s'
      | EmptyString => None
      end
  end.

(** [s[a:b]] and [s[a:]]. *)
Definition slice (a b : nat) (s : string) : string :=
  String.substring a (b - a) s.
Definition slice_from (a : nat) (s : string) : string :=
  String.substring a (String.length s - a) s.

(** The admin directories, the filesystem and the [jsaraw] program are not
    part of this function; they enter as an environment.
    [make_misc_scratch_dir] gives the scratch directory it made and
    [get_misc_log_dir] the directory the logs of a kind go to, or what they
    raise.  [dir_exists] answers [os.path.exists].  [makedirs_error],
    [open_error] and [rmtree_error] give, for a path, the message of the
    error that [os.makedirs], [open(path, 'w')] and [shutil.rmtree] raise
    there, if any.  [jsaraw_run] is what becomes of the command in the
    given working directory: the message of the error when it cannot be
    started, or else its exit status. *)
Record Env := mkEnv {
  make_misc_scratch_dir : string → exn + string;
  get_misc_log_dir : string → exn + string;
  dir_exists : string → bool;
  makedirs_error : string → option string;
  open_error : string → option string;
  jsaraw_run : list string → option string → string + Z;
  rmtree_error : string → option string
}.

Definition IOError (msg : string) : exn := Raise (OtherError "IOError") msg.
Definition OSError (msg : string) : exn := Raise (OtherError "OSError") msg.

Definition dquote : string := String (Ascii.ascii_of_nat 34) EmptyString.

Fixpoint join_words (sep : string) (ws : list string) : string :=
  match ws with
  | [] => ""
  | [w] => w
  | w :: rest => w +:+ sep +:+ join_words sep rest
  end.

Definition msg_start (obsid : string) : string :=
  "Starting raw ingestion of OBSID " +:+ obsid.
Definition msg_cannot_parse (obsid : string) : string :=
  "Cannot parser OBSID " +:+ obsid +:+ " to obtain date".
Definition msg_no_date (obsid : string) : string :=
  "Cannot find date in OBSID " +:+ obsid.
Definition msg_parsed (year month day : string) : string :=
  "Parsed OBSID, date: " +:+ month +:+ "/" +:+ day +:+ "/" +:+ year.
Definition msg_running (program obsid : string) : string :=
  "Running " +:+ program +:+ " for OBSID " +:+ obsid.
Definition msg_would_run (command : list string) : string :=
  "Would have run: " +:+ dquote +:+ join_words " " command +:+ dquote
  +:+ " (DRY RUN)".
Definition msg_ingestion_error : string := "Error during CAOM-2 ingestion".

Section Ingest.

Variable env : Env.

Definition fail_with (error : string → exn) (failure : option string)
    : M unit :=
  match failure with
  | Some msg => raise (error msg)
  | None => mret tt
  end.

Definition os_makedirs (path : string) : M unit :=
  record_call (EvMakeDirs path) ;;
  fail_with OSError (makedirs_error env path).

Definition shutil_rmtree (path : string) : M unit :=
  record_call (EvRmTree path) ;;
  fail_with OSError (rmtree_error env path).

Definition msg_exit_status (status : Z) : string :=
  "Command returned non-zero exit status " +:+ Py.fmt_i status.

(** [subprocess.check_call]: a command that cannot be started raises
    [OSError]; a non-zero exit status is raised as [CalledProcessError]. *)
Definition check_call (command : list string) (cwd : option string)
    : M unit :=
  match jsaraw_run env command cwd with
  | inl msg =>
      record_call (EvCannotStart command cwd) ;;
      raise (OSError msg)
  | inr status =>
      record_call (EvCheckCall command cwd status) ;;
      if Z.eqb status 0 then mret tt
      else raise (Raise CalledProcessError (msg_exit_status status))
  end.

(** [with open(path, 'w') as log: body]: when the file cannot be opened the
    body is not entered; once it is open, it is closed however the body
    ends. *)
Definition with_open {A} (path : string) (body : M A) : M A :=
  λ w, match (record_call (EvOpen path) ;;
              fail_with IOError (open_error env path)) w with
       | (inl e, w') => (inl e, w')
       | (inr _, w') =>
           match body w' with
           | (r, w'') => (r, (record_call (EvClose path) w'').2)
           end
       end.

Definition command_of (obsid log_file : string) : list string :=
  ["jsaraw"; "--collection"; "JCMT"; "--key"; obsid;
   "--log"; log_file +:+ ".full"; "--debug"].

Definition ingest_raw_observation (obsid : string) (dry_run : bool)
    : M unit :=
  emit DEBUG (msg_start obsid) ;;
  match obsid_date_search obsid with
  | None =>
      emit LERROR (msg_cannot_parse obsid) ;;
      raise (Raise JSAProcError (msg_no_date obsid))
  | Some date =>
      let year := slice 0 4 date in
      let month := slice 4 6 date in
      let day := slice_from 6 date in
      emit DEBUG (msg_parsed year month day) ;;
      scratch_dir ←
        (if negb dry_run then
           scratch_dir ← lift_result (make_misc_scratch_dir env "rawingest") ;
           record_call (EvMakeScratchDir "rawingest" scratch_dir) ;;
           emit INFO ("Working directory: " +:+ scratch_dir) ;;
           mret (Some scratch_dir)
         else mret None) ;
      log_file ←
        (if negb dry_run then
           base ← lift_result (get_misc_log_dir env "rawingest") ;
           let log_dir :=
             Py.path_join (Py.path_join (Py.path_join base year) month) day in
           (if negb (dir_exists env log_dir) then os_makedirs log_dir
            else mret tt) ;;
           emit INFO ("Log directory: " +:+ log_dir) ;;
           let log_file := Py.path_join log_dir (obsid +:+ ".log") in
           emit DEBUG ("Log file: " +:+ log_file) ;;
           mret log_file
         else mret "DRY_RUN_MODE") ;
      let command := command_of obsid log_file in
      attempt ←
        try_except CalledProcessError
          (if negb dry_run then
             with_open log_file
               (emit INFO (msg_running "jsaraw" obsid) ;;
                check_call command scratch_dir)
           else emit INFO (msg_would_run command)) ;
      match attempt with
      | inl _ => emit LERROR msg_ingestion_error
      | inr _ => mret tt
      end ;;
      if negb dry_run then
        emit DEBUG "Deleting scratch directory" ;;
        shutil_rmtree (default "" scratch_dir)
      else mret tt
  end.

End Ingest.

(** Where a run that is not a dry run keeps its log, once the date is
    known: [base] is the directory of the ingestion logs. *)
Definition log_dir_of (base date : string) : string :=
  Py.path_join
    (Py.path_join (Py.path_join base (slice 0 4 date)) (slice 4 6 date))
    (slice_from 6 date).
Definition log_file_of (base obsid date : string) : string :=
  Py.path_join (log_dir_of base date) (obsid +:+ ".log").

(** What a run that is not a dry run logs and calls up to the point where
    it opens its log file: [scratch] is the scratch directory it was
    given. *)
Definition logs_before_open (base obsid date scratch : string)
    : list log_record :=
  [(DEBUG, msg_start obsid);
   (DEBUG, msg_parsed (slice 0 4 date) (slice 4 6 date) (slice_from 6 date));
   (INFO, "Working directory: " +:+ scratch);
   (INFO, "Log directory: " +:+ log_dir_of base date);
   (DEBUG, "Log file: " +:+ log_file_of base obsid date)].

Definition calls_before_open (env : Env) (base date scratch : string)
    : list event :=
  [EvMakeScratchDir "rawingest" scratch]
  ++ (if dir_exists env (log_dir_of base date) then []
      else [EvMakeDirs (log_dir_of base date)]).

(** What it logs and calls in all when [jsaraw] was started and left with
    the exit status [status]. *)
Definition run_logs (base obsid date scratch : string) (status : Z)
    : list log_record :=
  logs_before_open base obsid date scratch
  ++ [(INFO, msg_running "jsaraw" obsid)]
  ++ (if Z.eqb status 0 then [] else [(LERROR, msg_ingestion_error)])
  ++ [(DEBUG, "Deleting scratch directory")].

Definition run_calls (env : Env) (base obsid date scratch : string)
    (status : Z) : list event :=
  calls_before_open env base date scratch
  ++ [EvOpen (log_file_of base obsid date);
      EvCheckCall (command_of obsid (log_file_of base obsid date))
        (Some scratch) status;
      EvClose (log_file_of base obsid date);
      EvRmTree scratch].




End RawIngest.

Arguments RawIngest.msg_start : simpl never.
Arguments RawIngest.msg_parsed : simpl never.
Arguments RawIngest.msg_would_run : simpl never.
Arguments RawIngest.msg_cannot_parse : simpl never.
Arguments RawIngest.msg_no_date : simpl never.
Arguments RawIngest.msg_running : simpl never.
Arguments RawIngest.command_of : simpl never.
Arguments RawIngest.slice : simpl never.
Arguments RawIngest.slice_from : simpl never.
Arguments Py.path_join : simpl never.

(** ** Concrete surroundings used to run the model *)

Module Sample.

Definition job_a : Job := mkJob WAITING "JAC" "night" "REDUCE_SCAN" 5.
Definition job_b : Job := mkJob WAITING "JAC" "night" "REDUCE_SCAN" 9.
Definition job_c : Job := mkJob RUNNING "JAC" "obs" "REDUCE_SCIENCE" 19.
Definition job_d : Job := mkJob WAITING "CADC" "obs" "REDUCE_SCIENCE" 30.

Definition store : DB :=
  mkDB (<[1 := job_a]> (<[2 := job_b]> (<[3 := job_c]> (<[4 := job_d]> ∅))))
       ∅ [].

Definition world : World := mkWorld store [] [].

Definition input_dir (job_id : Z) : string := "/jcmtdata/input/" +:+ Py.fmt_i job_id.

(** Everything in place, nobody else touching the store. *)
Definition quiet : Env :=
  mkEnv "kamaka" input_dir (λ _, true) (λ _ _ _ _, inr "oracdr.log")
        (λ d, d) (λ _, inr ["a_reduced.fits"; "a_preview_256.png"]).

(** The input manifest is not on shared storage. *)
Definition no_manifest : Env :=
  mkEnv "kamaka" input_dir (λ _, false) (λ _ _ _ _, inr "oracdr.log")
        (λ d, d) (λ _, inr ["a_reduced.fits"; "a_preview_256.png"]).

(** The pipeline fails. *)
Definition broken_pipeline : Env :=
  mkEnv "kamaka" input_dir (λ _, true)
        (λ _ _ _ _, inl (Raise JSAProcError "jsawrapdr exited with status 1"))
        (λ d, d) (λ _, inr ["a_reduced.fits"; "a_preview_256.png"]).

(** While the pipeline runs, an operator resets job 1 at the dashboard. *)
Definition operator_reset (d : DB) : DB :=
  match Store.change_state 1 (OtherState "QUEUED") "reset by operator" None d
  with
  | inr d' => d'
  | inl _ => d
  end.

Definition meddled : Env :=
  mkEnv "kamaka" input_dir (λ _, true) (λ _ _ _ _, inr "oracdr.log")
        operator_reset (λ _, inr ["a_reduced.fits"; "a_preview_256.png"]).

(** [jsaraw] exits with status 3; everything else goes through. *)
Definition failing_jsaraw : RawIngest.Env :=
  RawIngest.mkEnv (λ kind, inr ("/scratch/" +:+ kind +:+ "/tmpq1"))
    (λ kind, inr ("/jcmtdata/log/" +:+ kind)) (λ _, false)
    (λ _, None) (λ _, None) (λ _ _, inr 3) (λ _, None).


End Sample.

(** ** Vocabulary of the properties *)

(** The world after a run that began in [w]: the store it leaves, and what
    it added to the process log and to the calls made. *)
Definition after (w : World) (d : DB) (ls : list log_record)
    (cs : list event) : World :=
  {| db := d; logged := logged w ++ ls; calls := calls w ++ cs |}.

Definition new_calls (w w' : World) : list event :=
  drop (length (calls w)) (calls w').

Definition claim_event (env : Env) (job_id : Z) (force : bool) : event :=
  EvChangeState job_id RUNNING (msg_claim env)
    (if force then None else Some WAITING).

Definition launch_event (env : Env) (job_id : Z) (j : Job) : event :=
  EvPipeline job_id (input_file_list_of env job_id) (mode j) (parameters j).

Definition processed_event (job_id : Z) : event :=
  EvChangeState job_id PROCESSED msg_processed (Some RUNNING).

Definition error_event (job_id : Z) (e : exn) : event :=
  EvChangeState job_id ERROR (msg_failure e) None.

Definition no_manifest_error (env : Env) (job_id : Z) : exn :=
  Raise JSAProcError (msg_no_input (input_file_list_of env job_id) job_id).

Definition failed_db (job_id : Z) (e : exn) (j : Job) (d : DB) : DB :=
  {| jobs := <[job_id := set_state ERROR j]> (jobs d);
     output_file := output_file d;
     log := log d ++ [mkLog job_id (state j) ERROR (msg_failure e)] |}.

(** Whoever else acts on the store never deletes a job row. *)
Definition keeps_rows (f : DB → DB) : Prop :=
  ∀ d id, is_Some (jobs d !! id) → is_Some (jobs (f d) !! id).

Definition raised {A} (r : exn + A) : Prop := ∃ e, r = inl e.

Definition writes_output_files (cs : list event) : Prop :=
  ∃ id files, EvSetOutputFiles id files ∈ cs.

(** Every way the body of [run_a_job] can go, with the world it leaves. *)
Inductive body_run (env : Env) (job_id : Z) (force : bool) (w : World)
    : (exn + option Z) * World → Prop :=
| run_lost e :
    Store.change_state job_id RUNNING (msg_claim env)
      (if force then None else Some WAITING) (db w) = inl e →
    body_run env job_id force w
      (inr None,
       after w (db w)
         [(INFO, msg_about_to_run job_id); (LERROR, msg_not_waiting job_id)]
         [claim_event env job_id force])
| run_no_manifest d1 :
    Store.change_state job_id RUNNING (msg_claim env)
      (if force then None else Some WAITING) (db w) = inr d1 →
    path_exists env (input_file_list_of env job_id) = false →
    body_run env job_id force w
      (inl (no_manifest_error env job_id),
       after w d1 [(INFO, msg_about_to_run job_id)]
         [claim_event env job_id force])
| run_pipeline_failed d1 j e :
    Store.change_state job_id RUNNING (msg_claim env)
      (if force then None else Some WAITING) (db w) = inr d1 →
    jobs d1 !! job_id = Some j →
    path_exists env (input_file_list_of env job_id) = true →
    jsawrapdr_run env job_id (input_file_list_of env job_id)
      (mode j) (parameters j) = inl e →
    body_run env job_id force w
      (inl e,
       after w (others_act env d1)
         [(INFO, msg_about_to_run job_id);
          (DEBUG, msg_launch (mode j) (parameters j))]
         [claim_event env job_id force; launch_event env job_id j])
| run_listing_failed d1 j lg e :
    Store.change_state job_id RUNNING (msg_claim env)
      (if force then None else Some WAITING) (db w) = inr d1 →
    jobs d1 !! job_id = Some j →
    path_exists env (input_file_list_of env job_id) = true →
    jsawrapdr_run env job_id (input_file_list_of env job_id)
      (mode j) (parameters j) = inr lg →
    get_output_files env job_id = inl e →
    body_run env job_id force w
      (inl e,
       after w (others_act env d1)
         [(INFO, msg_about_to_run job_id);
          (DEBUG, msg_launch (mode j) (parameters j));
          (DEBUG, "Preparing list of output files")]
         [claim_event env job_id force; launch_event env job_id j])
| run_not_running d1 j lg files e :
    Store.change_state job_id RUNNING (msg_claim env)
      (if force then None else Some WAITING) (db w) = inr d1 →
    jobs d1 !! job_id = Some j →
    path_exists env (input_file_list_of env job_id) = true →
    jsawrapdr_run env job_id (input_file_list_of env job_id)
      (mode j) (parameters j) = inr lg →
    get_output_files env job_id = inr files →
    Store.change_state job_id PROCESSED msg_processed (Some RUNNING)
      (Store.set_output_files job_id files (others_act env d1)) = inl e →
    body_run env job_id force w
      (inl e,
       after w (Store.set_output_files job_id files (others_act env d1))
         [(INFO, msg_about_to_run job_id);
          (DEBUG, msg_launch (mode j) (parameters j));
          (DEBUG, "Preparing list of output files");
          (DEBUG, "Storing list of output files")]
         [claim_event env job_id force; launch_event env job_id j;
          EvSetOutputFiles job_id files; processed_event job_id])
| run_done d1 j lg files d3 :
    Store.change_state job_id RUNNING (msg_claim env)
      (if force then None else Some WAITING) (db w) = inr d1 →
    jobs d1 !! job_id = Some j →
    path_exists env (input_file_list_of env job_id) = true →
    jsawrapdr_run env job_id (input_file_list_of env job_id)
      (mode j) (parameters j) = inr lg →
    get_output_files env job_id = inr files →
    Store.change_state job_id PROCESSED msg_processed (Some RUNNING)
      (Store.set_output_files job_id files (others_act env d1)) = inr d3 →
    body_run env job_id force w
      (inr (Some job_id),
       after w d3
         [(INFO, msg_about_to_run job_id);
          (DEBUG, msg_launch (mode j) (parameters j));
          (DEBUG, "Preparing list of output files");
          (DEBUG, "Storing list of output files");
          (INFO, msg_done job_id)]
         [claim_event env job_id force; launch_event env job_id j;
          EvSetOutputFiles job_id files; processed_event job_id]).

(** ** Tests on strings that the web layer uses *)

Module Text.

(** [sub in s]. *)
Fixpoint contains (sub s : string) : bool :=
  String.prefix sub s
  || match s with
     | String _ s' => contains sub s'
     | EmptyString => false
     end.

(** [s.endswith(suffix)]. *)
Fixpoint ends_with (suffix s : string) : bool :=
  String.eqb s suffix
  || match s with
     | String _ s' => ends_with suffix s'
     | EmptyString => false
     end.

(** [s] without the leading [lit], when it starts with it. *)
Fixpoint strip_prefix (lit s : string) : option string :=
  match lit with
  | EmptyString => Some s
  | String c lit' =>
      match s with
      | String d s' => if Ascii.eqb c d then strip_prefix lit' s' else None
      | EmptyString => None
      end
  end.

(** The pattern [lit[0-9]{n}] matched at the head of [s]. *)
Definition lit_digits_here (lit : string) (n : nat) (s : string) : bool :=
  match strip_prefix lit s with
  | Some rest => bool_decide (is_Some (RawIngest.take_digits n rest))
  | None => false
  end.

(** [re.search('lit[0-9]{n}', s)] as a truth value. *)
Fixpoint lit_digits_search (lit : string) (n : nat) (s : string) : bool :=
  lit_digits_here lit n s
  || match s with
     | String _ s' => lit_digits_search lit n s'
     | EmptyString => false
     end.

End Text.

(** ** Output file lists for the job pages ([web/component/files.py]) *)

Module Files.

Record FileInfo := mkFileInfo {
  name : string;
  url : option string;
  mtype : option string
}.

Section MakeList.

(** [url_for('job_preview', job_id=..., preview=...)] of [jsa_proc.web.util]
    and [get_output_dir] of [jsa_proc.admin.directories] are not among the
    sources at hand; they enter as functions.  [get_output_files] is the
    store client's method: the files recorded for the job, or what it
    raises. *)
Variable url_for : string → Z → string → string.
Variable get_output_dir : Z → string.
Variable get_output_files : Z → exn + list string.

(** [preview_filter is None or any((f in i for f in preview_filter))]. *)
Definition passes (preview_filter : option (list string)) (i : string)
    : bool :=
  match preview_filter with
  | None => true
  | Some fs => existsb (λ f, Text.contains f i) fs
  end.

(** The [url] and [mtype] the loop body gives a file name. *)
Definition file_info (job_id : Z) (i : string) : FileInfo :=
  if Text.ends_with ".fits" i then
    let url := "file://" +:+ get_output_dir job_id +:+ "/" +:+ i in
    let mtype :=
      if Text.lit_digits_search "-cat" 6 i then Some "table.load.fits"
      else if Text.lit_digits_search "-moc" 6 i then Some "image.load.fits"
      else if Text.contains "_rsp_" i then None
      else Some "image.load.fits" in
    mkFileInfo i (Some url) mtype
  else mkFileInfo i None None.

(** One turn of the loop over the recorded files: the three lists
    [(output_files, previews1024, previews256)] after the turn. *)
Definition loop_body (job_id : Z) (preview_filter : option (list string))
    (acc : list FileInfo * list string * list string) (i : string)
    : list FileInfo * list string * list string :=
  let '(output_files, previews1024, previews256) := acc in
  let previews256 :=
    if passes preview_filter i && Text.contains "preview_256.png" i
    then previews256 ++ [url_for "job_preview" job_id i]
    else previews256 in
  let previews1024 :=
    if passes preview_filter i && Text.contains "preview_1024.png" i
    then previews1024 ++ [url_for "job_preview" job_id i]
    else previews1024 in
  (output_files ++ [file_info job_id i], previews1024, previews256).

Definition make_output_file_list (job_id : Z)
    (preview_filter : option (list string))
    : exn + list FileInfo * list string * list string :=
  match get_output_files job_id with
  | inr files =>
      inr (fold_left (loop_body job_id preview_filter) files ([], [], []))
  | inl e =>
      if bool_decide (exn_cls e = NoRowsError) then inr ([], [], [])
      else inl e
  end.

End MakeList.

(** The recorded files whose preview of a given size is shown. *)
Definition preview_names (size : string)
    (preview_filter : option (list string)) (files : list string)
    : list string :=
  filter (λ i, passes preview_filter i && Text.contains size i = true) files.

End Files.

(** ** The routes that change jobs, and the job list
       ([web/flask_app.py]) *)

Module Routes.

Record authorization := mkAuth { username : string; password : string }.

(** What a handler reads of the request: the query string ([request.args]),
    the posted form ([request.form]), the credentials
    ([request.authorization]) and the referrer. *)
Record request := mkRequest {
  args : list (string * string);
  form : list (string * string);
  auth : option authorization;
  referrer : option string
}.

Record response := mkResponse {
  status : Z;
  template : string;
  redirect : option string;
  headers : list (string * string)
}.

(** What a handler does besides answering: the messages it flashes and the
    changes it asks of the store. *)
Inductive action :=
| ChangeState (job_ids : list string) (newstate message username : string)
| ChangeQA (job_ids : list string) (qa_state message username : string).

Record trail := mkTrail { flashed : list string; actions : list action }.

Definition H (A : Type) : Type := trail → (exn + A) * trail.

#[global] Instance H_ret : MRet H := λ A a t, (inr a, t).
#[global] Instance H_bind : MBind H :=
  λ A B k c t, match c t with
               | (inr a, t') => k a t'
               | (inl e, t') => (inl e, t')
               end.

Definition throw {A} (e : exn) : H A := λ t, (inl e, t).
Definition flash (msg : string) : H unit :=
  λ t, (inr tt, {| flashed := flashed t ++ [msg]; actions := actions t |}).
Definition act (a : action) : H unit :=
  λ t, (inr tt, {| flashed := flashed t; actions := actions t ++ [a] |}).
Definition lift {A} (r : exn + A) : H A := λ t, (r, t).

(** [try: c  except: handler]: the bare [except] takes every exception. *)
Definition try_any {A} (c : H A) (handler : H A) : H A :=
  λ t, match c t with
       | (inr a, t') => (inr a, t')
       | (inl _, t') => handler t'
       end.

Definition HTTPRedirect (url : string) : exn :=
  Raise (OtherError "HTTPRedirect") url.
Definition BadRequestKeyError (key : string) : exn :=
  Raise (OtherError "BadRequestKeyError") key.

(** [d.get(key, None)], [d.getlist(key)] and [d[key]] on a multi-dict. *)
Definition get (d : list (string * string)) (key : string) : option string :=
  snd <$> head (filter (λ kv, kv.1 = key) d).
Definition getlist (d : list (string * string)) (key : string)
    : list string :=
  snd <$> filter (λ kv, kv.1 = key) d.
Definition item (d : list (string * string)) (key : string) : H string :=
  match get d key with
  | Some v => mret v
  | None => throw (BadRequestKeyError key)
  end.

Definition loginstring : string :=
  "Basic realm=" +:+ RawIngest.dquote
  +:+ "Login Required: use your username and the staff password, or hit cancel to log out"
  +:+ RawIngest.dquote.

(** [' or '.join(names)]. *)
Definition join_or (names : list string) : string :=
  RawIngest.join_words " or " names.

Section Handlers.

(** Parts of the package that are not among the sources at hand enter as
    functions: the password check of [jsa_proc.omp.auth], the two state
    changes of [jsa_proc.web.job_change_state] (what they raise, if
    anything), the names of the states and the list
    [JSAQAState.STATE_IFFY]. *)
Variable check_staff_password : string → bool.
Variable prepare_change_state :
  list string → string → string → string → option exn.
Variable prepare_change_qa :
  list string → string → string → string → option exn.
Variable state_get_name : string → exn + string.
Variable qa_get_name : string → exn + string.
Variable STATE_IFFY : list string.

Definition call_change_state (job_ids : list string)
    (newstate message user : string) : H unit :=
  act (ChangeState job_ids newstate message user) ;;
  match prepare_change_state job_ids newstate message user with
  | Some e => throw e
  | None => mret tt
  end.

Definition call_change_qa (job_ids : list string)
    (qa_state message user : string) : H unit :=
  act (ChangeQA job_ids qa_state message user) ;;
  match prepare_change_qa job_ids qa_state message user with
  | Some e => throw e
  | None => mret tt
  end.

Definition authenticate (r : request) : response :=
  mkResponse 401 "logout.html" (referrer r)
    [("WWW-Authenticate", loginstring)].

Definition requires_auth (f : request → H response) (r : request)
    : H response :=
  match auth r with
  | Some a =>
      if check_staff_password (password a) then f r
      else mret (authenticate r)
  | None => mret (authenticate r)
  end.

(** [request.authorization['username']]. *)
Definition auth_username (r : request) : H string :=
  match auth r with
  | Some a => mret (username a)
  | None => throw (Raise TypeError "'NoneType' object is not subscriptable")
  end.

Definition job_change_state_body (r : request) : H response :=
  newstate ← item (form r) "newstate" ;
  message ← item (form r) "message" ;
  let job_ids := getlist (form r) "job_id" in
  url ← item (form r) "url" ;
  username ← auth_username r ;
  call_change_state job_ids newstate message username ;;
  name ← lift (state_get_name newstate) ;
  flash ("The status has been updated to " +:+ name +:+ ".") ;;
  throw (HTTPRedirect url).

Definition job_change_state : request → H response :=
  requires_auth job_change_state_body.

Fixpoint names_of (states : list string) : H (list string) :=
  match states with
  | [] => mret []
  | x :: rest =>
      n ← lift (qa_get_name x) ;
      ns ← names_of rest ;
      mret (n :: ns)
  end.

Definition msg_need_message (names : list string) : string :=
  "You must provide a message to change QA state to " +:+ join_or names
  +:+ ".".
Definition msg_qa_updated (name : string) : string :=
  "The QA status has been updated to " +:+ name +:+ ".".
Definition msg_qa_unsuccessful : string :=
  "UNSUCCESSFUL attempt to update qa status!".

Definition job_change_qa_body (r : request) : H response :=
  qa_state ← item (form r) "qa_state" ;
  message ← item (form r) "message" ;
  let job_ids := getlist (form r) "job_id" in
  url ← item (form r) "url" ;
  username ← auth_username r ;
  (if bool_decide (message = "") && bool_decide (qa_state ∈ STATE_IFFY)
   then
     names ← names_of STATE_IFFY ;
     flash (msg_need_message names)
   else
     try_any
       (call_change_qa job_ids qa_state message username ;;
        name ← lift (qa_get_name qa_state) ;
        flash (msg_qa_updated name))
       (flash msg_qa_unsuccessful)) ;;
  throw (HTTPRedirect url).

Definition job_change_qa : request → H response :=
  requires_auth job_change_qa_body.

End Handlers.

(** *** The job list *)

Definition opt_value (o : option string) : Py.value :=
  match o with
  | Some s => Py.VStr s
  | None => Py.VNone
  end.

(** [v == ''] for the values a query holds. *)
Definition is_empty_string (v : Py.value) : bool :=
  match v with
  | Py.VStr s => String.eqb s ""
  | _ => false
  end.

Definition regular_params : list string :=
  ["location"; "task"; "date_min"; "date_max"; "qa_state"; "sourcename";
   "obsnum"; "project"].

(** The loop that turns empty form fields into [None]. *)
Definition blank_to_none (v : Py.value) : Py.value :=
  if is_empty_string v then Py.VNone else v.

(** The query that [job_list] stores in the session and passes on to
    [prepare_job_list] as keyword arguments.  [obs_query_keys] stands for
    [ObsQueryDict.keys()] of [jsa_proc.jcmtobsinfo]. *)
Definition job_list_query (obs_query_keys : list string)
    (request_args : list (string * string)) : gmap string Py.value :=
  let kwargs : gmap string Py.value :=
    <["mode" := Py.VStr (default "JSAProc" (get request_args "mode"))]>
      (<["state" := Py.VList (Py.VStr <$> getlist request_args "state")]> ∅)
  in
  let params := regular_params ++ obs_query_keys in
  let kwargs :=
    foldl (λ kw key, <[key := opt_value (get request_args key)]> kw)
          kwargs params in
  blank_to_none <$> kwargs.

End Routes.

(** ** Access to the OMP and JCMT databases ([omp/db.py]) *)

Module OMP.

(** Where [OMPDB.__init__] takes its credentials from:
    [get_omp_siteconfig()] or [get_config()]. *)
Inductive config_source := SiteConfig | JSAProcConfig.

(** The module imports [NoRowsError] and [ExcessRowsError] from
    [jsa_proc.error] and nothing else: the name [JSAProcError] that
    [__init__] evaluates in its last branch is not bound. *)
Definition NameError (name : string) : exn :=
  Raise (OtherError "NameError") ("name '" +:+ name +:+ "' is not defined").

Section Connect.

(** [config.get(section, key)] of either configuration, and
    [Sybase.connect]. *)
Variable config_get : config_source → string → string → string.
Variable Sybase_connect : string → string → string → exn + string.

(** Which configuration and which section of it [__init__] settles on. *)
Definition credentials_for (write_access : Py.value)
    : exn + config_source * string :=
  match write_access with
  | Py.VNone => inr (SiteConfig, "hdr_database")
  | Py.VStr wa =>
      if String.eqb wa "omp" then inr (SiteConfig, "database")
      else if String.eqb wa "jcmt" then inr (JSAProcConfig, "database_jcmt")
      else inl (NameError "JSAProcError")
  | _ => inl (NameError "JSAProcError")
  end.

(** [OMPDB(write_access)]: the connection, or what is raised. *)
Definition OMPDB_init (write_access : Py.value) : exn + string :=
  match credentials_for write_access with
  | inl e => inl e
  | inr (config, credentials) =>
      Sybase_connect (config_get config credentials "server")
        (config_get config credentials "user")
        (config_get config credentials "password")
  end.

End Connect.

Definition star : string := String (Ascii.ascii_of_nat 42) EmptyString.
Definition quoted (s : string) : string :=
  RawIngest.dquote +:+ s +:+ RawIngest.dquote.

Definition where_start : string := "(utdate >= @us)".
Definition where_end : string := "(utdate <= @ue)".
Definition where_finished : string :=
  "(DATEDIFF(hh, date_obs, GETUTCDATE()) >= 4)".
Definition where_never_ingested : string := "(last_caom_mod IS NULL)".
Definition where_stale : string :=
  "((last_caom_mod IS NULL)"
  +:+ " OR (last_caom_mod < (SELECT MAX(commentdate)"
  +:+ " FROM omp..ompobslog"
  +:+ " WHERE omp..ompobslog.obsid=COMMON.obsid)))".
Definition where_transferred : string :=
  "(SELECT COUNT(" +:+ star +:+ ") FROM FILES"
  +:+ " JOIN transfer ON FILES.file_id=transfer.file_id"
  +:+ " WHERE FILES.obsid=COMMON.obsid"
  +:+ " AND transfer.status NOT IN (" +:+ quoted "t" +:+ ", "
  +:+ quoted "d" +:+ ", " +:+ quoted "D" +:+ ", " +:+ quoted "z" +:+ "))"
  +:+ " = 0".

(** The query and the arguments that [find_obs_for_ingestion] hands to the
    cursor. *)
Definition ingestion_query (utdate_start utdate_end : option Z)
    (no_status_check : bool) : string * list (string * Z) :=
  let where_ : list string := [] in
  let args : list (string * Z) := [] in
  let '(args, where_) :=
    match utdate_start with
    | Some us => (args ++ [("@us", us)], where_ ++ [where_start])
    | None => (args, where_)
    end in
  let '(args, where_) :=
    match utdate_end with
    | Some ue => (args ++ [("@ue", ue)], where_ ++ [where_end])
    | None => (args, where_)
    end in
  let where_ := where_ ++ [where_finished] in
  let where_ :=
    if no_status_check then where_ ++ [where_never_ingested]
    else where_ ++ [where_stale] in
  let where_ := where_ ++ [where_transferred] in
  ("SELECT obsid FROM COMMON WHERE " +:+ RawIngest.join_words " AND " where_,
   args).

(** The loop over [fetchone()]: one observation per row, until the cursor
    is exhausted. *)
Fixpoint fetch_obsids (pending : list string) (result : list string)
    : list string :=
  match pending with
  | [] => result
  | row :: rest => fetch_obsids rest (result ++ [row])
  end.

(** [find_obs_for_ingestion], with the cursor given as the rows it yields
    for a query and its arguments. *)
Definition find_obs_for_ingestion
    (cursor : string → list (string * Z) → list string)
    (utdate_start utdate_end : option Z) (no_status_check : bool)
    : list string :=
  let '(query, args) :=
    ingestion_query utdate_start utdate_end no_status_check in
  fetch_obsids (cursor query args) [].



Section Transaction.

(** The lock is [OMPSybaseLock] of the [omp] package, which is not among
    the sources at hand; it enters as what its two ends do.  [lock_enter]
    is what [__enter__] raises, if anything, instead of giving the cursor.
    [lock_exit] is what [__exit__] does when handed the exception that
    leaves the block: it raises, or returns a value whose truth tells the
    [with] statement to swallow that exception. *)
Variable lock_enter : option exn.
Variable lock_exit : option exn → exn + bool.

(** The server's side: what executing a statement, committing and rolling
    back raise, if anything. *)
Variable execute : string → list (string * string) → option exn.
Variable commit : option exn.
Variable rollback : option exn.









End Transaction.

End OMP.

(** ** More concrete surroundings *)

Module Fixture.

Definition url_for (endpoint : string) (job_id : Z) (preview : string)
    : string :=
  "/" +:+ endpoint +:+ "/" +:+ Py.fmt_i job_id +:+ "/" +:+ preview.

Definition output_dir (job_id : Z) : string :=
  "/jcmtdata/output/" +:+ Py.fmt_i job_id.

Definition recorded : list string :=
  ["s20140304_00012_reduced001.fits";
   "s20140304_00012_reduced001_preview_256.png";
   "s20140304_00012_reduced001_preview_1024.png";
   "a20140304_00012_rsp_001.fits";
   "s20140304_00012-cat000001.fits";
   "oracdr.log"].

(** Job 1 has output files, no other job has. *)
Definition files_of (job_id : Z) : exn + list string :=
  if Z.eqb job_id 1 then inr recorded
  else inl (Raise NoRowsError "no output files").

Definition staff_password (p : string) : bool := String.eqb p "kapu".

Definition agrees (job_ids : list string) (st message user : string)
    : option exn := None.
Definition refuses (job_ids : list string) (st message user : string)
    : option exn := Some (Raise JSAProcError "state change refused").

Definition qa_name (s : string) : exn + string :=
  if String.eqb s "G" then inr "Good"
  else if String.eqb s "Q" then inr "Questionable"
  else if String.eqb s "B" then inr "Bad"
  else inl (Raise JSAProcError ("Unknown QA state " +:+ s)).

Definition state_name (s : string) : exn + string :=
  if String.eqb s "Q" then inr "Queued"
  else if String.eqb s "E" then inr "Error"
  else inl (Raise JSAProcError ("Unknown state " +:+ s)).

Definition iffy : list string := ["B"; "Q"].

Definition operator : Routes.authorization := Routes.mkAuth "graham" "kapu".

Definition post (fields : list (string * string))
    (who : option Routes.authorization) : Routes.request :=
  Routes.mkRequest [] fields who (Some "/job/7").

Definition nothing_yet : Routes.trail := Routes.mkTrail [] [].


End Fixture.

(** * Properties *)

(** ** Facts about the store *)

Lemma change_state_ok job_id newstate message state_prev d j :
  jobs d !! job_id = Some j →
  (∀ p, state_prev = Some p → state j = p) →
  Store.change_state job_id newstate message state_prev d =
    inr {| jobs := <[job_id := set_state newstate j]> (jobs d);
           output_file := output_file d;
           log := log d ++ [mkLog job_id (state j) newstate message] |}.
Proof.
  intros Hj Hp. unfold Store.change_state. rewrite Hj.
  destruct state_prev as [p|]; [|done].
  rewrite bool_decide_eq_true_2; [done|]. by apply Hp.
Qed.

Lemma change_state_inv job_id newstate message state_prev d d' :
  Store.change_state job_id newstate message state_prev d = inr d' →
  ∃ j, jobs d !! job_id = Some j
       ∧ (∀ p, state_prev = Some p → state j = p)
       ∧ d' = {| jobs := <[job_id := set_state newstate j]> (jobs d);
                 output_file := output_file d;
                 log := log d ++ [mkLog job_id (state j) newstate message] |}.
Proof.
  unfold Store.change_state. destruct (jobs d !! job_id) as [j|]; [|done].
  destruct state_prev as [p|].
  - case_bool_decide; [|done]. intros [= <-]. exists j. split; [done|].
    split; [|done]. by intros ? [= <-].
  - intros [= <-]. exists j. by repeat split.
Qed.

Lemma change_state_conflict job_id newstate message state_prev d e :
  Store.change_state job_id newstate message state_prev d = inl e →
  exn_cls e = NoRowsError.
Proof.
  unfold Store.change_state. destruct (jobs d !! job_id) as [j|].
  - destruct (match state_prev with None => true | Some p => _ end);
      [done|]. by intros [= <-].
  - by intros [= <-].
Qed.

(** A forced transition reaches every job that has a row. *)
Lemma change_state_forced job_id newstate message d :
  is_Some (jobs d !! job_id) →
  ∃ d', Store.change_state job_id newstate message None d = inr d'
        ∧ state <$> jobs d' !! job_id = Some newstate.
Proof.
  intros [j Hj]. eexists. split.
  - by apply change_state_ok.
  - cbn. by rewrite lookup_insert_eq.
Qed.

(** ** The runner, case by case *)

Lemma new_calls_after w d ls cs : new_calls w (after w d ls cs) = cs.
Proof. unfold new_calls, after. cbn. by rewrite drop_app_length. Qed.

Ltac unfold_M :=
  unfold db_change_state, db_get_job, db_set_output_files, db_find_jobs,
    call_jsawrapdr_run, db_update, db_try, with_db, record_call, emit,
    lift_result, try_except, raise,
    mbind, M_bind, bind, mret, M_ret, ret in *.

Ltac tidy_after :=
  unfold after; cbn; rewrite <- ?app_assoc; cbn; try done.

Lemma claimed_row job_id message state_prev d d1 :
  Store.change_state job_id RUNNING message state_prev d = inr d1 →
  ∃ j, jobs d !! job_id = Some j
       ∧ jobs d1 !! job_id = Some (set_state RUNNING j)
       ∧ output_file d1 = output_file d
       ∧ log d1 = log d ++ [mkLog job_id (state j) RUNNING message].
Proof.
  intros (j & Hj & _ & ->)%change_state_inv. exists j. cbn.
  by rewrite lookup_insert_eq.
Qed.

Ltac by_case lem :=
  match goal with
  | |- body_run ?e ?j ?f ?w ?r =>
      refine (eq_ind _ (body_run e j f w) _ r _);
      [ eapply lem; eassumption | tidy_after ]
  end.

(** The body always returns or raises, along one of these ways. *)
Lemma body_run_total env job_id force w :
  body_run env job_id force w (run_a_job_body env job_id force w).
Proof.
  unfold run_a_job_body, claim. unfold_M. cbn.
  destruct (Store.change_state job_id RUNNING (msg_claim env)
              (if force then None else Some WAITING) (db w))
    as [e|d1] eqn:Hc; cbn.
  { rewrite (change_state_conflict _ _ _ _ _ _ Hc).
    rewrite bool_decide_eq_true_2 by done. cbn. by_case run_lost. }
  destruct (claimed_row _ _ _ _ _ Hc) as (j0 & _ & Hj & _).
  unfold run_claimed. unfold_M. cbn.
  destruct (path_exists env (input_file_list_of env job_id)) eqn:Hp; cbn.
  2:{ by_case run_no_manifest. }
  unfold Store.get_job. rewrite Hj. cbn.
  set (j := set_state RUNNING j0) in *.
  change (mode j0) with (mode j). change (parameters j0) with (parameters j).
  destruct (jsawrapdr_run env job_id (input_file_list_of env job_id)
              (mode j) (parameters j)) as [e|lg] eqn:Hl; cbn.
  { by_case run_pipeline_failed. }
  destruct (get_output_files env job_id) as [e|files] eqn:Hf; cbn.
  { by_case run_listing_failed. }
  destruct (Store.change_state job_id PROCESSED msg_processed (Some RUNNING)
      (Store.set_output_files job_id files (others_act env d1)))
    as [e|d3] eqn:Hd; cbn.
  - by_case run_not_running.
  - by_case run_done.
Qed.

(** ** The failure-containment wrapper *)

Lemma ErrorDecorator_pass f job_id force w r w' :
  f job_id force w = (inr r, w') →
  ErrorDecorator f job_id force w = (inr r, w').
Proof. intros H. unfold ErrorDecorator. by rewrite H. Qed.

Lemma ErrorDecorator_contain f job_id force w e w' j :
  f job_id force w = (inl e, w') →
  jobs (db w') !! job_id = Some j →
  ErrorDecorator f job_id force w =
    (inr None,
     after w' (failed_db job_id e j (db w')) [] [error_event job_id e]).
Proof.
  intros H Hj. unfold ErrorDecorator. rewrite H. unfold_M. cbn.
  rewrite (change_state_ok _ _ _ None _ j) by done.
  unfold after. by rewrite app_nil_r.
Qed.

Lemma after_after w d ls cs d' ls' cs' :
  after (after w d ls cs) d' ls' cs' = after w d' (ls ++ ls') (cs ++ cs').
Proof. unfold after. cbn. by rewrite <- !app_assoc. Qed.

Lemma db_after w d ls cs : db (after w d ls cs) = d.
Proof. done. Qed.

(** [run_a_job] is its body followed, on a raise, by the forced transition
    to [ERROR]. *)
Lemma run_a_job_unfold env job_id force w :
  run_a_job env job_id force w =
    match run_a_job_body env job_id force w with
    | (inr r, w') => (inr r, w')
    | (inl e, w') =>
        match Store.change_state job_id ERROR (msg_failure e) None (db w')
        with
        | inr d => (inr None, after w' d [] [error_event job_id e])
        | inl e' => (inl e', after w' (db w') [] [error_event job_id e])
        end
    end.
Proof.
  unfold run_a_job, ErrorDecorator.
  destruct (run_a_job_body env job_id force w) as [[e|r] w']; [|done].
  unfold_M. cbn. unfold after. rewrite app_nil_r.
  by destruct (Store.change_state job_id ERROR (msg_failure e) None (db w')).
Qed.

(** Case analysis on a run of [run_a_job]: one goal per way the body can
    go, the wrapper's transition unfolded. *)
Ltac run_cases env job_id force w :=
  rewrite ?(run_a_job_unfold env job_id force w) in *;
  let Hr := fresh "Hr" in
  pose proof (body_run_total env job_id force w) as Hr;
  inversion Hr as [er Hclaim Hrun | dc Hclaim Hman Hrun
                  | dc jc er Hclaim Hrow Hman Hpipe Hrun
                  | dc jc lgr er Hclaim Hrow Hman Hpipe Hlist Hrun
                  | dc jc lgr fs er Hclaim Hrow Hman Hpipe Hlist Hproc Hrun
                  | dc jc lgr fs dp Hclaim Hrow Hman Hpipe Hlist Hproc Hrun];
  clear Hr; rewrite <- ?Hrun in *; cbn [fst snd] in *.

Lemma body_lost env job_id (force : bool) w e :
  Store.change_state job_id RUNNING (msg_claim env)
    (if force then None else Some WAITING) (db w) = inl e →
  run_a_job_body env job_id force w =
    (inr None,
     after w (db w)
       [(INFO, msg_about_to_run job_id); (LERROR, msg_not_waiting job_id)]
       [claim_event env job_id force]).
Proof. intros H. run_cases env job_id force w; congruence. Qed.


(** When the body raises, the job still has a row for the wrapper to mark. *)
Lemma body_raise_row env job_id force w e w1 :
  keeps_rows (others_act env) →
  run_a_job_body env job_id force w = (inl e, w1) →
  is_Some (jobs (db w1) !! job_id).
Proof.
  intros Hk. run_cases env job_id force w; intros [= <- <-]; cbn.
  - apply claimed_row in Hclaim as (j0 & _ & -> & _). eauto.
  - apply Hk. eauto.
  - apply Hk. eauto.
  - apply Hk. eauto.
Qed.

Lemma run_a_job_returns env job_id force w :
  keeps_rows (others_act env) →
  ∃ r w', run_a_job env job_id force w = (inr r, w').
Proof.
  intros Hk. rewrite run_a_job_unfold.
  destruct (run_a_job_body env job_id force w) as [[e|r] w1] eqn:Hb; [|eauto].
  destruct (body_raise_row _ _ _ _ _ _ Hk Hb) as [j Hj].
  rewrite (change_state_ok _ _ _ None _ j) by done. eauto.
Qed.

(** ** Losing the claim *)

(** C1, as the code has it: when the claim transition to [RUNNING] is
    rejected by the store (no rows affected), [run_a_job] writes the
    conflict to the process log at the error level and returns [None].
    The store is left exactly as it was, the only call made is the rejected
    claim, the body returns normally so the wrapper has nothing to contain,
    and no transition to [ERROR] is issued. *)
Theorem C1_lost_claim_logged_job_untouched env job_id (force : bool) w e :
  Store.change_state job_id RUNNING (msg_claim env)
    (if force then None else Some WAITING) (db w) = inl e →
  run_a_job_body env job_id force w =
    (inr None,
     after w (db w)
       [(INFO, msg_about_to_run job_id); (LERROR, msg_not_waiting job_id)]
       [claim_event env job_id force])
  ∧ run_a_job env job_id force w = run_a_job_body env job_id force w
  ∧ db (run_a_job env job_id force w).2 = db w
  ∧ ∀ id m p,
      EvChangeState id ERROR m p ∉ new_calls w (run_a_job env job_id force w).2.
Proof.
  intros H. pose proof (body_lost _ _ _ _ _ H) as Hb.
  split; [done|]. rewrite run_a_job_unfold, Hb. split; [done|].
  split; [done|]. intros id m p. cbn [snd]. rewrite new_calls_after.
  unfold claim_event. by intros [=]%list_elem_of_singleton.
Qed.

Lemma C1_lost_claim_witness :
  run_a_job Sample.quiet 3 false Sample.world =
    (inr None,
     after Sample.world Sample.store
       [(INFO, "About to run job 3");
        (LERROR, "Job 3 cannot be run because it is not waiting")]
       [EvChangeState 3 RUNNING "Job is about to be run on host kamaka"
          (Some WAITING)]).
Proof.
  destruct (C1_lost_claim_logged_job_untouched Sample.quiet 3 false
              Sample.world (Raise NoRowsError "change_state: no rows for job 3"))
    as (Hb & Hw & _).
  - vm_compute. reflexivity.
  - rewrite Hw. exact Hb.
Defined.

(** C1 as worded fails: job 3 is [RUNNING], the claim is rejected, and the
    conflict is logged at the error level; the process log holds no record
    of it at the informational or the warning level. *)
Lemma C1_conflict_not_logged_at_info_or_warning :
  Store.change_state 3 RUNNING (msg_claim Sample.quiet) (Some WAITING)
    (db Sample.world) = inl (Raise NoRowsError "change_state: no rows for job 3")
  ∧ logged (run_a_job Sample.quiet 3 false Sample.world).2 =
      [(INFO, "About to run job 3");
       (LERROR, "Job 3 cannot be run because it is not waiting")]
  ∧ ¬ ∃ lvl, (lvl = INFO ∨ lvl = WARNING)
             ∧ (lvl, msg_not_waiting 3)
               ∈ logged (run_a_job Sample.quiet 3 false Sample.world).2.
Proof.
  split; [by vm_compute|]. split; [by vm_compute|].
  intros (lvl & Hl & Hin).
  replace (logged (run_a_job Sample.quiet 3 false Sample.world).2) with
    [(INFO, "About to run job 3");
     (LERROR, "Job 3 cannot be run because it is not waiting")] in Hin
    by (by vm_compute).
  apply list_elem_of_In in Hin. cbn in Hin.
  destruct Hin as [Heq|[Heq|[]]]; injection Heq as <-; intros;
    destruct Hl; discriminate.
Qed.

(** ** When the output files are written *)

Ltac in_cases H :=
  apply list_elem_of_In in H; cbn in H;
  repeat (destruct H as [H|H]); try discriminate H; try (destruct H; fail).

Ltac wrapper_cases job_id :=
  repeat match goal with
         | |- context [Store.change_state job_id ERROR ?m None ?d] =>
             destruct (Store.change_state job_id ERROR m None d)
         end;
  cbn [fst snd]; rewrite ?after_after, ?new_calls_after; cbn [app];
  unfold claim_event, launch_event, processed_event, error_event.

(** C2, as the code has it: within a run of [run_a_job] the output files are
    written only once the claim has succeeded, the manifest was found, the
    pipeline has returned and its products were listed; the write is the
    call made right after the pipeline and right before the transition to
    [PROCESSED] is attempted.  A run that fails at the manifest, in the
    pipeline or while listing the products writes no output files. *)
Theorem C2_output_files_written_after_pipeline env job_id (force : bool) w :
  let cs := new_calls w (run_a_job env job_id force w).2 in
  (∀ id files, EvSetOutputFiles id files ∈ cs →
     id = job_id
     ∧ path_exists env (input_file_list_of env job_id) = true
     ∧ get_output_files env job_id = inr files
     ∧ ∃ d1 j lg tail,
         Store.change_state job_id RUNNING (msg_claim env)
           (if force then None else Some WAITING) (db w) = inr d1
         ∧ jobs d1 !! job_id = Some j
         ∧ jsawrapdr_run env job_id (input_file_list_of env job_id)
             (mode j) (parameters j) = inr lg
         ∧ cs = [claim_event env job_id force; launch_event env job_id j;
                 EvSetOutputFiles job_id files; processed_event job_id]
                ++ tail)
  ∧ (∀ j, jobs (db w) !! job_id = Some j →
       path_exists env (input_file_list_of env job_id) = false
       ∨ raised (jsawrapdr_run env job_id (input_file_list_of env job_id)
                   (mode j) (parameters j))
       ∨ raised (get_output_files env job_id) →
       ¬ writes_output_files cs).
Proof.
  cbn zeta. split.
  - intros id files.
    run_cases env job_id force w;
      wrapper_cases job_id;
      intros Hin; in_cases Hin; injection Hin as <- <-;
      (split; [done|]); (split; [done|]); (split; [done|]);
      eexists _, _, _, _; (split; [done|]); (split; [eassumption|]);
      (split; [eassumption|]); reflexivity.
  - intros j Hj Hfail (id & files & Hin). revert Hin.
    run_cases env job_id force w;
      wrapper_cases job_id;
      intros Hin; in_cases Hin.
    all: apply claimed_row in Hclaim as (j0 & Hj0 & Hj1 & _).
    all: assert (j0 = j) as -> by congruence.
    all: assert (jc = set_state RUNNING j) as -> by congruence.
    all: cbn in Hpipe; unfold raised in Hfail;
      rewrite Hman, Hpipe, Hlist in Hfail.
    all: destruct Hfail as [?|[[? ?]|[? ?]]]; discriminate.
Qed.

Lemma C2_output_files_witness :
  get_output_files Sample.meddled 1 = inr ["a_reduced.fits"; "a_preview_256.png"]
  ∧ ¬ writes_output_files
        (new_calls Sample.world
           (run_a_job Sample.no_manifest 1 false Sample.world).2).
Proof.
  split.
  - apply (proj1 (C2_output_files_written_after_pipeline Sample.meddled 1
                    false Sample.world) 1).
    vm_compute. apply list_elem_of_In. cbn. tauto.
  - apply (proj2 (C2_output_files_written_after_pipeline Sample.no_manifest 1
                    false Sample.world) Sample.job_a).
    + vm_compute. reflexivity.
    + left. reflexivity.
Defined.

(** C2 as worded fails twice over.  In a run nobody disturbs, the output
    files are written before the transition to [PROCESSED] is made.  And
    when an operator resets job 1 while its pipeline runs, the files are
    written, the transition to [PROCESSED] is rejected, and the job ends in
    [ERROR] with its output files set. *)
Lemma C2_output_files_set_for_job_ending_in_error :
  new_calls Sample.world (run_a_job Sample.quiet 1 false Sample.world).2 =
    [EvChangeState 1 RUNNING "Job is about to be run on host kamaka"
       (Some WAITING);
     EvPipeline 1 "/jcmtdata/input/1/input_files_job.lis" "night"
       "REDUCE_SCAN";
     EvSetOutputFiles 1 ["a_reduced.fits"; "a_preview_256.png"];
     EvChangeState 1 PROCESSED "Job has been sucessfully processed"
       (Some RUNNING)]
  ∧ output_file (db Sample.world) !! 1 = None
  ∧ state <$> jobs (db (run_a_job Sample.meddled 1 false Sample.world).2) !! 1
    = Some ERROR
  ∧ output_file (db (run_a_job Sample.meddled 1 false Sample.world).2) !! 1
    = Some ["a_reduced.fits"; "a_preview_256.png"].
Proof. repeat split; by vm_compute. Qed.

(** ** Failures after the claim *)

Lemma run_job_returns env job_id force w :
  keeps_rows (others_act env) →
  ∃ w', run_job env job_id force w = (inr tt, w').
Proof.
  intros Hk. unfold run_job. destruct (no_job_id job_id).
  - unfold_M. cbn.
    destruct (Store.find_jobs WAITING "JAC" true 1 true (db w)) as [|r rs];
      [eauto|].
    edestruct (run_a_job_returns env r.1 false) as (x & w' & ->); [done|].
    eauto.
  - unfold_M.
    edestruct (run_a_job_returns env (default 0 job_id) force)
      as (x & w' & ->); [done|].
    eauto.
Qed.

(** C3: whatever the body of [run_a_job] raises (it can only do so once the
    claim has succeeded: a missing manifest, a failed pipeline, a failed
    listing or a rejected store operation), the wrapper appends one entry to
    the job's log that carries the failure's class and message, puts the
    job into [ERROR] and returns [None] instead of raising; and [run_job]
    returns normally whatever it is called with.  Other processes are
    assumed never to delete a job row. *)
Theorem C3_failure_contained env job_id (force : bool) w e w1 :
  keeps_rows (others_act env) →
  run_a_job_body env job_id force w = (inl e, w1) →
  (∃ d1, Store.change_state job_id RUNNING (msg_claim env)
           (if force then None else Some WAITING) (db w) = inr d1)
  ∧ (∃ j, jobs (db w1) !! job_id = Some j
        ∧ run_a_job env job_id force w =
            (inr None,
             after w1
               {| jobs := <[job_id := set_state ERROR j]> (jobs (db w1));
                  output_file := output_file (db w1);
                  log := log (db w1)
                         ++ [mkLog job_id (state j) ERROR
                               (class_name (exn_cls e) +:+ ": " +:+ exn_msg e)]
               |}
               [] [error_event job_id e]))
  ∧ (∀ job_id' force' w0, ∃ w', run_job env job_id' force' w0 = (inr tt, w')).
Proof.
  intros Hk Hb. split; [|split].
  - revert Hb. run_cases env job_id force w; intros [= <- <-]; eauto.
  - destruct (body_raise_row _ _ _ _ _ _ Hk Hb) as [j Hj]. exists j.
    split; [done|].
    unfold run_a_job.
    by rewrite (ErrorDecorator_contain _ _ _ _ _ _ _ Hb Hj).
  - intros. by apply run_job_returns.
Qed.

Lemma C3_failure_contained_witness :
  run_a_job Sample.broken_pipeline 1 false Sample.world =
    (inr None,
     after Sample.world
       {| jobs := <[1 := set_state ERROR Sample.job_a]> (jobs Sample.store);
          output_file := ∅;
          log := [mkLog 1 WAITING RUNNING
                    "Job is about to be run on host kamaka";
                  mkLog 1 RUNNING ERROR
                    "JSAProcError: jsawrapdr exited with status 1"] |}
       [(INFO, "About to run job 1");
        (DEBUG, "Launching jsawrapdr: mode=night, parameters=REDUCE_SCAN")]
       [EvChangeState 1 RUNNING "Job is about to be run on host kamaka"
          (Some WAITING);
        EvPipeline 1 "/jcmtdata/input/1/input_files_job.lis" "night"
          "REDUCE_SCAN";
        EvChangeState 1 ERROR "JSAProcError: jsawrapdr exited with status 1"
          None]).
Proof.
  destruct (C3_failure_contained Sample.broken_pipeline 1 false Sample.world
              (Raise JSAProcError "jsawrapdr exited with status 1")
              (run_a_job_body Sample.broken_pipeline 1 false Sample.world).2)
    as (_ & (j & Hj & Hrun) & _).
  - intros d id Hrow. exact Hrow.
  - vm_compute. reflexivity.
  - rewrite Hrun. vm_compute in Hj. injection Hj as <-.
    vm_compute. reflexivity.
Defined.

(** ** A missing input manifest *)

(** C4: when the claim has succeeded and the input file list of the job is
    not on shared storage, the body of [run_a_job] raises a [JSAProcError]
    whose message names the missing file list, having made no call but the
    claim (the pipeline is never started); the wrapper then takes the job
    from [RUNNING] to [ERROR] with that message in the job's log, and the
    output files recorded for the job are what they were before the run. *)
Theorem C4_missing_manifest env job_id (force : bool) w d1 :
  Store.change_state job_id RUNNING (msg_claim env)
    (if force then None else Some WAITING) (db w) = inr d1 →
  path_exists env (input_file_list_of env job_id) = false →
  let manifest := input_file_list_of env job_id in
  let e := Raise JSAProcError
             ("Input file list " +:+ manifest +:+ " not found for job_id "
              +:+ Py.fmt_i job_id) in
  run_a_job_body env job_id force w =
    (inl e,
     after w d1 [(INFO, msg_about_to_run job_id)]
       [claim_event env job_id force])
  ∧ ∃ w2, run_a_job env job_id force w = (inr None, w2)
      ∧ new_calls w w2 =
          [claim_event env job_id force; error_event job_id e]
      ∧ state <$> jobs (db w2) !! job_id = Some ERROR
      ∧ log (db w2) =
          log d1 ++ [mkLog job_id RUNNING ERROR
                       ("JSAProcError: " +:+ exn_msg e)]
      ∧ output_file (db w2) = output_file (db w).
Proof.
  intros Hc Hp manifest e.
  assert (run_a_job_body env job_id force w =
            (inl e, after w d1 [(INFO, msg_about_to_run job_id)]
                      [claim_event env job_id force])) as Hb.
  { run_cases env job_id force w; try congruence.
    assert (dc = d1) as -> by congruence. done. }
  split; [done|].
  destruct (claimed_row _ _ _ _ _ Hc) as (j0 & Hj0 & Hj1 & Ho & _).
  unfold run_a_job.
  rewrite (ErrorDecorator_contain _ _ _ _ _ _ _ Hb Hj1).
  eexists. split; [done|]. rewrite after_after, new_calls_after, db_after.
  cbn. rewrite lookup_insert_eq. by repeat split.
Qed.

Lemma C4_missing_manifest_witness :
  run_a_job_body Sample.no_manifest 1 false Sample.world =
    (inl (Raise JSAProcError
            "Input file list /jcmtdata/input/1/input_files_job.lis not found for job_id 1"),
     after Sample.world
       {| jobs := <[1 := set_state RUNNING Sample.job_a]> (jobs Sample.store);
          output_file := ∅;
          log := [mkLog 1 WAITING RUNNING
                    "Job is about to be run on host kamaka"] |}
       [(INFO, "About to run job 1")]
       [EvChangeState 1 RUNNING "Job is about to be run on host kamaka"
          (Some WAITING)]).
Proof.
  apply (C4_missing_manifest Sample.no_manifest 1 false Sample.world).
  - vm_compute. reflexivity.
  - reflexivity.
Defined.

(** ** A successful run *)




(** ** Forced and normal claims *)




Lemma run_job_nothing_found env job_id force w :
  no_job_id job_id = true →
  Store.find_jobs WAITING "JAC" true 1 true (db w) = [] →
  run_job env job_id force w =
    (inr tt,
     after w (db w)
       [(DEBUG, "Looking for a job to run");
        (WARNING, "Did not find a job to run!")] []).
Proof.
  intros H Hf. unfold run_job. rewrite H. unfold_M. cbn. rewrite Hf.
  unfold after. cbn. by rewrite <- ?app_assoc, app_nil_r.
Qed.




(** ** No work *)

(** C7: called with no job id, when the selection of [WAITING] jobs at
    [JAC] comes back empty, [run_job] logs a warning and returns normally;
    the store is as it was and no call has left the process. *)
Theorem C7_no_work_is_not_an_error env job_id force w :
  no_job_id job_id = true →
  Store.find_jobs WAITING "JAC" true 1 true (db w) = [] →
  run_job env job_id force w =
    (inr tt,
     {| db := db w;
        logged := logged w ++ [(DEBUG, "Looking for a job to run");
                               (WARNING, "Did not find a job to run!")];
        calls := calls w |}).
Proof.
  intros Hno Hf. rewrite (run_job_nothing_found _ _ _ _ Hno Hf).
  unfold after. by rewrite app_nil_r.
Qed.

Lemma C7_no_work_witness :
  run_job Sample.quiet None true
    (mkWorld (mkDB (<[3 := Sample.job_c]> (<[4 := Sample.job_d]> ∅)) ∅ [])
       [] []) =
    (inr tt,
     mkWorld (mkDB (<[3 := Sample.job_c]> (<[4 := Sample.job_d]> ∅)) ∅ [])
       [(DEBUG, "Looking for a job to run");
        (WARNING, "Did not find a job to run!")] []).
Proof.
  apply (C7_no_work_is_not_an_error Sample.quiet None true).
  - reflexivity.
  - vm_compute. reflexivity.
Defined.

(** The selection is empty exactly when the store holds no job in the
    state asked for at the location asked for. *)
Lemma find_jobs_empty st loc prioritize n sort d :
  Store.find_jobs st loc prioritize (S n) sort d = [] ↔
  ∀ id j, jobs d !! id = Some j → ¬ (state j = st ∧ location j = loc).
Proof.
  unfold Store.find_jobs.
  set (rows := filter _ (map_to_list (jobs d))).
  set (sorted := if prioritize then _ else _).
  assert (sorted ≡ₚ rows) as Hperm.
  { subst sorted. destruct prioritize, sort;
      rewrite ?merge_sort_Permutation; done. }
  assert (take (S n) sorted = [] ↔ rows = []) as ->.
  { split.
    - destruct sorted as [|r rs] eqn:Hs; [|done].
      intros _. by apply Permutation_nil_r.
    - intros Hr. rewrite Hr in Hperm.
      apply Permutation_nil_r in Hperm. by rewrite Hperm. }
  subst rows. split.
  - intros Hnil id j Hj Hm.
    assert ((id, j) ∈ filter (λ r : Z * Job, state r.2 = st ∧ location r.2 = loc)
                         (map_to_list (jobs d))) as Hin.
    { apply list_elem_of_filter. split; [done|].
      by apply elem_of_map_to_list. }
    rewrite Hnil in Hin. by apply elem_of_nil in Hin.
  - intros Hnone.
    destruct (filter _ (map_to_list (jobs d))) as [|[id j] rs] eqn:Hrows;
      [done|].
    assert ((id, j) ∈ filter (λ r : Z * Job, state r.2 = st ∧ location r.2 = loc)
                         (map_to_list (jobs d))) as Hin
      by (rewrite Hrows; by left).
    apply list_elem_of_filter in Hin as [Hm Hin%elem_of_map_to_list].
    by destruct (Hnone id j Hin).
Qed.

(** ** The poller's driver *)

(** C8: the driver exits with status 0 exactly when [poll_jac_jobs] returned
    a value that is true, and with status 1 in every other case. *)
Theorem C8_exit_status_reflects_poll poll_jac_jobs verbose d :
  (Driver.exit_code poll_jac_jobs verbose d = 0 ↔
     ∃ status d', poll_jac_jobs d = (inr status, d')
                  ∧ Py.truthy status = true)
  ∧ (Driver.exit_code poll_jac_jobs verbose d ≠ 0 →
     Driver.exit_code poll_jac_jobs verbose d = 1).
Proof.
  unfold Driver.exit_code, Driver.state_machine_jac.
  destruct (poll_jac_jobs d) as [[e|status] d'] eqn:Hp; cbn.
  - split; [|done]. split; [done|]. by intros (? & ? & [=] & _).
  - destruct (Py.truthy status) eqn:Ht; cbn.
    + split; [|done]. split; [eauto|done].
    + split; [|done]. split; [done|]. intros (? & ? & [= <- <-] & ?).
      congruence.
Qed.

Lemma C8_exit_status_witness :
  Driver.exit_code (λ d, (inr (Py.VBool false), d)) true Sample.store = 1.
Proof.
  apply (C8_exit_status_reflects_poll (λ d, (inr (Py.VBool false), d)) true
           Sample.store).
  discriminate.
Defined.

(** ** The error-summary route *)

(** C9: whatever the request, the handler's call of
    [prepare_error_summary] raises a [TypeError] for the keyword argument
    [filtering], which the function does not take; the handler never
    returns a summary. *)
Theorem C9_error_summary_always_raises d request_args :
  Web.error_summary d request_args =
    inl (Raise TypeError
           "prepare_error_summary() got an unexpected keyword argument 'filtering'")
  ∧ ∀ s, Web.error_summary d request_args ≠ inr s.
Proof. split; [reflexivity|]. intros s. discriminate. Qed.

(** A call that passes a keyword the function does not declare raises a
    [TypeError], whatever else is passed. *)
Lemma bind_keywords_TypeError name params bound kwargs e :
  Web.bind_keywords name params bound kwargs = inl e →
  exn_cls e = TypeError.
Proof.
  revert bound. induction kwargs as [|[k v] rest IH]; intros bound; cbn.
  - done.
  - case_bool_decide; cbn; [|by intros [= <-]].
    destruct (Web.is_bound k bound); [by intros [= <-]|]. apply IH.
Qed.

Lemma bind_keywords_unexpected name params bound kw1 k v kw2 :
  k ∉ params →
  ∃ e, Web.bind_keywords name params bound (kw1 ++ (k, v) :: kw2) = inl e.
Proof.
  intros Hk. revert bound.
  induction kw1 as [|[k1 v1] kw1 IH]; intros bound; cbn.
  - rewrite bool_decide_eq_false_2 by done. cbn. eauto.
  - case_bool_decide; cbn; [|eauto].
    destruct (Web.is_bound k1 bound); [eauto|]. apply IH.
Qed.

Lemma call_unexpected_keyword {A} (f : Web.pyfun A) args kw1 k v kw2 :
  k ∉ Web.fun_params f →
  ∃ e, Web.call f args (kw1 ++ (k, v) :: kw2) = inl e
       ∧ exn_cls e = TypeError.
Proof.
  intros Hk. unfold Web.call. case_decide; [by eexists|].
  destruct (bind_keywords_unexpected (Web.fun_name f) (Web.fun_params f)
              (zip (Web.fun_params f) args) kw1 k v kw2 Hk) as [e He].
  rewrite He. exists e. split; [done|].
  by eapply bind_keywords_TypeError.
Qed.

(** ** Raw ingestion *)

Lemma append_cons c s t : String c s +:+ t = String c (s +:+ t).
Proof. done. Qed.


Lemma take_digits_inv n s d rest :
  RawIngest.take_digits n s = Some (d, rest) →
  s = d +:+ rest ∧ String.length d = n ∧ RawIngest.all_digits d = true.
Proof.
  revert s d rest. induction n as [|n IH]; intros s d rest; cbn.
  - by intros [= <- <-].
  - destruct s as [|c s]; [done|].
    destruct (RawIngest.is_digit c) eqn:Hc; [|done].
    destruct (RawIngest.take_digits n s) as [[d' rest']|] eqn:Ht; [|done].
    intros [= <- <-]. destruct (IH _ _ _ Ht) as (-> & <- & Hd).
    cbn. by rewrite Hc, Hd.
Qed.

Lemma take_digits_app d rest :
  RawIngest.all_digits d = true →
  RawIngest.take_digits (String.length d) (d +:+ rest) = Some (d, rest).
Proof.
  induction d as [|c d IH]; cbn; [done|].
  intros [Hc Hd]%andb_prop. rewrite append_cons, Hc, IH; done.
Qed.

Lemma match_here_inv s d :
  RawIngest.match_here s = Some d →
  ∃ post, s = "_" +:+ d +:+ "T" +:+ post
          ∧ String.length d = 8%nat ∧ RawIngest.all_digits d = true.
Proof.
  unfold RawIngest.match_here. destruct s as [|c s]; [done|].
  destruct (decide (c = "_"%char)) as [->|Hne].
  - destruct (RawIngest.take_digits 8 s) as [[d' rest]|] eqn:Ht.
    + destruct rest as [|t rest]; [done|].
      destruct (decide (t = "T"%char)) as [->|Hne].
      * intros [= <-]. apply take_digits_inv in Ht as (-> & ? & ?).
        by exists rest.
      * intros H. exfalso. revert H.
        destruct t as [[] [] [] [] [] [] [] []]; try done.
    + done.
  - intros H. exfalso. revert H.
    destruct c as [[] [] [] [] [] [] [] []]; try done.
Qed.

Lemma search_unfold s :
  RawIngest.obsid_date_search s =
    match RawIngest.match_here s with
    | Some d => Some d
    | None =>
        match s with
        | String _ s' => RawIngest.obsid_date_search s'
        | EmptyString => None
        end
    end.
Proof. by destruct s. Qed.

Lemma search_sound s d :
  RawIngest.obsid_date_search s = Some d →
  ∃ pre post, s = pre +:+ "_" +:+ d +:+ "T" +:+ post
              ∧ String.length d = 8%nat ∧ RawIngest.all_digits d = true.
Proof.
  induction s as [|c s IH]; rewrite search_unfold.
  - done.
  - destruct (RawIngest.match_here (String c s)) as [d'|] eqn:Hm.
    + intros [= ->]. apply match_here_inv in Hm as (post & -> & ? & ?).
      by exists "", post.
    + intros (pre & post & -> & ? & ?)%IH. by exists (String c pre), post.
Qed.



Section IngestRuns.

Variable env : RawIngest.Env.
Variable obsid : string.
Variable w : World.


Variable date : string.
Hypothesis Hdate : RawIngest.obsid_date_search obsid = Some date.


Ltac unfold_ingest :=
  unfold RawIngest.ingest_raw_observation, RawIngest.run_logs,
    RawIngest.run_calls, RawIngest.logs_before_open,
    RawIngest.calls_before_open, RawIngest.log_file_of,
    RawIngest.log_dir_of, RawIngest.with_open, RawIngest.check_call,
    RawIngest.os_makedirs, RawIngest.shutil_rmtree, RawIngest.fail_with.



Lemma ingest_run_opens path :
  EvOpen path
    ∈ new_calls w (RawIngest.ingest_raw_observation env obsid false w).2 →
  ∃ base, RawIngest.get_misc_log_dir env "rawingest" = inr base
          ∧ path = RawIngest.log_file_of base obsid date.
Proof.
  unfold new_calls. unfold_ingest. rewrite Hdate. unfold_M. cbn.
  destruct (RawIngest.make_misc_scratch_dir env "rawingest") as [|scratch];
    cbn.
  { rewrite drop_all. by intros ?%elem_of_nil. }
  destruct (RawIngest.get_misc_log_dir env "rawingest") as [|base]; cbn.
  { rewrite drop_app_length. intros [=]%list_elem_of_singleton. }
  intros Hin. exists base. split; [done|]. revert Hin.
  repeat (cbn;
          first [ destruct (RawIngest.dir_exists env _)
                | destruct (RawIngest.makedirs_error env _)
                | destruct (RawIngest.open_error env _)
                | destruct (RawIngest.jsaraw_run env _ _)
                | destruct (Z.eqb _ 0)
                | destruct (RawIngest.rmtree_error env _)
                | rewrite bool_decide_eq_true_2 by done
                | rewrite bool_decide_eq_false_2 by done ]).
  all: cbn; rewrite <- ?app_assoc, drop_app_length.
  all: intros Hin; apply list_elem_of_In in Hin; cbn in Hin.
  all: repeat destruct Hin as [Hin|Hin]; try discriminate; try done.
  all: by injection Hin.
Qed.

End IngestRuns.




(** ** Tests on strings *)

Lemma prefix_spec sub s :
  String.prefix sub s = true ↔ ∃ post, s = sub +:+ post.
Proof.
  revert s. induction sub as [|c sub IH]; intros s.
  - split; [by exists s|by destruct s].
  - destruct s as [|d s]; cbn.
    + split; [done|]. by intros [post [=]].
    + destruct (ascii_dec c d) as [->|Hne].
      * rewrite IH. split.
        -- intros [post ->]. by exists post.
        -- intros [post [= ->]]. by exists post.
      * split; [done|]. intros [post [= ? ?]]. done.
Qed.

Lemma contains_unfold sub s :
  Text.contains sub s =
    String.prefix sub s
    || match s with
       | String _ s' => Text.contains sub s'
       | EmptyString => false
       end.
Proof. by destruct s. Qed.

Lemma contains_spec sub s :
  Text.contains sub s = true ↔ ∃ pre post, s = pre +:+ sub +:+ post.
Proof.
  induction s as [|c s IH]; rewrite contains_unfold, orb_true_iff.
  - split.
    + intros [[post ->]%prefix_spec|?]; [|done]. by exists "", post.
    + intros (pre & post & H). left. apply prefix_spec.
      destruct pre; [by exists post|done].
  - rewrite IH. split.
    + intros [[post ->]%prefix_spec|(pre & post & ->)].
      * by exists "", post.
      * by exists (String c pre), post.
    + intros (pre & post & H). destruct pre as [|c' pre].
      * left. apply prefix_spec. by exists post.
      * right. injection H as -> ->. by exists pre, post.
Qed.

Lemma ends_with_unfold suffix s :
  Text.ends_with suffix s =
    String.eqb s suffix
    || match s with
       | String _ s' => Text.ends_with suffix s'
       | EmptyString => false
       end.
Proof. by destruct s. Qed.

Lemma ends_with_spec suffix s :
  Text.ends_with suffix s = true ↔ ∃ stem, s = stem +:+ suffix.
Proof.
  induction s as [|c s IH]; rewrite ends_with_unfold, orb_true_iff.
  - rewrite String.eqb_eq. split.
    + intros [<-|?]; [|done]. by exists "".
    + intros (stem & H). left. by destruct stem.
  - rewrite String.eqb_eq, IH. split.
    + intros [<-|(stem & ->)]; [by exists ""|by exists (String c stem)].
    + intros (stem & H). destruct stem as [|c' stem].
      * by left.
      * right. injection H as -> ->. by exists stem.
Qed.

Lemma strip_prefix_spec lit s rest :
  Text.strip_prefix lit s = Some rest ↔ s = lit +:+ rest.
Proof.
  revert s. induction lit as [|c lit IH]; intros s; cbn.
  - split; [by intros [= ->]|by intros ->].
  - destruct s as [|d s]; [by split|].
    destruct (Ascii.eqb c d) eqn:Hcd.
    + apply Ascii.eqb_eq in Hcd as ->. rewrite IH. split.
      * by intros ->.
      * by intros [= ->].
    + apply Ascii.eqb_neq in Hcd. split; [done|]. by intros [= ? ?].
Qed.

Lemma take_digits_is_Some n s :
  is_Some (RawIngest.take_digits n s) ↔
  ∃ d post, s = d +:+ post ∧ String.length d = n
            ∧ RawIngest.all_digits d = true.
Proof.
  split.
  - intros [[d post] (-> & ? & ?)%take_digits_inv]. by exists d, post.
  - intros (d & post & -> & <- & Hd). rewrite take_digits_app by done. eauto.
Qed.

Lemma lit_digits_here_spec lit n s :
  Text.lit_digits_here lit n s = true ↔
  ∃ d post, s = lit +:+ d +:+ post ∧ String.length d = n
            ∧ RawIngest.all_digits d = true.
Proof.
  unfold Text.lit_digits_here.
  destruct (Text.strip_prefix lit s) as [rest|] eqn:Hs.
  - apply strip_prefix_spec in Hs as ->.
    rewrite bool_decide_eq_true, take_digits_is_Some. split.
    + intros (d & post & -> & ? & ?). by exists d, post.
    + intros (d & post & Heq & ? & ?). exists d, post. split; [|done].
      revert Heq. clear. induction lit as [|c lit IH]; cbn; [done|].
      rewrite !append_cons. intros [= ?]. by apply IH.
  - split; [done|]. intros (d & post & -> & _).
    assert (Text.strip_prefix lit (lit +:+ d +:+ post) = Some (d +:+ post))
      as Hok by (by apply strip_prefix_spec).
    congruence.
Qed.

Lemma lit_digits_search_unfold lit n s :
  Text.lit_digits_search lit n s =
    Text.lit_digits_here lit n s
    || match s with
       | String _ s' => Text.lit_digits_search lit n s'
       | EmptyString => false
       end.
Proof. by destruct s. Qed.

(** The search for a literal followed by [n] digits succeeds exactly on the
    strings that hold such a run somewhere. *)
Lemma lit_digits_search_spec lit n s :
  Text.lit_digits_search lit n s = true ↔
  ∃ pre d post, s = pre +:+ lit +:+ d +:+ post ∧ String.length d = n
                ∧ RawIngest.all_digits d = true.
Proof.
  induction s as [|c s IH];
    rewrite lit_digits_search_unfold, orb_true_iff, lit_digits_here_spec.
  - split.
    + intros [(d & post & ? & ? & ?)|?]; [|done]. by exists "", d, post.
    + intros (pre & d & post & H & ? & ?). left. exists d, post.
      by destruct pre.
  - rewrite IH. split.
    + intros [(d & post & ? & ? & ?)|(pre & d & post & -> & ? & ?)].
      * by exists "", d, post.
      * by exists (String c pre), d, post.
    + intros (pre & d & post & H & ? & ?). destruct pre as [|c' pre].
      * left. by exists d, post.
      * right. injection H as -> ->. by exists pre, d, post.
Qed.

(** ** Output file lists *)

Section FileLists.

Variable url_for : string → Z → string → string.
Variable get_output_dir : Z → string.
Variable get_output_files : Z → exn + list string.

(** The loop, as three comprehensions over the recorded files. *)
Lemma loop_closed_form job_id preview_filter files o p1024 p256 :
  fold_left (Files.loop_body url_for get_output_dir job_id preview_filter)
    files (o, p1024, p256) =
    (o ++ (Files.file_info get_output_dir job_id <$> files),
     p1024 ++ (url_for "job_preview" job_id
                 <$> Files.preview_names "preview_1024.png" preview_filter files),
     p256 ++ (url_for "job_preview" job_id
                <$> Files.preview_names "preview_256.png" preview_filter files)).
Proof.
  revert o p1024 p256. unfold Files.preview_names.
  induction files as [|i files IH]; intros o p1024 p256.
  - cbn. by rewrite !app_nil_r.
  - rewrite !filter_cons. cbn [fold_left]. unfold Files.loop_body at 2.
    destruct (Files.passes preview_filter i); cbn [andb];
      destruct (Text.contains "preview_256.png" i);
      destruct (Text.contains "preview_1024.png" i);
      rewrite IH; repeat case_decide; try done;
      by rewrite ?fmap_cons, <- ?app_assoc.
Qed.

Lemma make_list_rows job_id preview_filter files :
  get_output_files job_id = inr files →
  Files.make_output_file_list url_for get_output_dir get_output_files
      job_id preview_filter =
    inr (Files.file_info get_output_dir job_id <$> files,
         url_for "job_preview" job_id
           <$> Files.preview_names "preview_1024.png" preview_filter files,
         url_for "job_preview" job_id
           <$> Files.preview_names "preview_256.png" preview_filter files).
Proof.
  intros H. unfold Files.make_output_file_list. rewrite H.
  by rewrite loop_closed_form.
Qed.

(** X1: a job with no recorded output files is not an error for the page:
    when the store raises [NoRowsError] the three lists come back empty;
    the function raises exactly when the store raises something else, and
    then that same exception. *)
Theorem make_output_file_list_no_rows job_id preview_filter :
  (∀ e, get_output_files job_id = inl e → exn_cls e = NoRowsError →
        Files.make_output_file_list url_for get_output_dir get_output_files
      job_id preview_filter = inr ([], [], []))
  ∧ (∀ e, Files.make_output_file_list url_for get_output_dir get_output_files
      job_id preview_filter = inl e ↔
          get_output_files job_id = inl e ∧ exn_cls e ≠ NoRowsError).
Proof.
  split.
  - intros e He Hc. unfold Files.make_output_file_list.
    by rewrite He, bool_decide_eq_true_2.
  - intros e. unfold Files.make_output_file_list.
    destruct (get_output_files job_id) as [e'|files].
    + case_bool_decide; split; try done.
      * by intros [[= ->] ?].
      * by intros [= ->].
      * by intros [[= ->] ?].
    + split; [done|]. by intros [[=] _].
Qed.

(** X2: the page lists every recorded file exactly once and in the order
    the store returned them, whatever the preview filter: the names of the
    [FileInfo] entries are the recorded file names. *)
Theorem make_output_file_list_names job_id preview_filter files :
  get_output_files job_id = inr files →
  ∃ output_files previews1024 previews256,
    Files.make_output_file_list url_for get_output_dir get_output_files
      job_id preview_filter
      = inr (output_files, previews1024, previews256)
    ∧ Files.name <$> output_files = files
    ∧ ∀ other_filter o p1 p2,
        Files.make_output_file_list url_for get_output_dir get_output_files
      job_id other_filter = inr (o, p1, p2) → o = output_files.
Proof.
  intros H. eexists _, _, _. split; [by apply make_list_rows|]. split.
  - induction files as [|i files IH] in |- *; [done|]. cbn.
    f_equal; [|done]. unfold Files.file_info. by case_match.
  - intros other o p1 p2. rewrite (make_list_rows _ _ _ H). by intros [= <- _ _].
Qed.

(** X3: a file gets a link exactly when its name ends in [.fits], and the
    link is the [file://] address of the name inside the job's output
    directory; a file without a link has no message type either. *)
Theorem file_info_url job_id i :
  (is_Some (Files.url (Files.file_info get_output_dir job_id i)) ↔ ∃ stem, i = stem +:+ ".fits")
  ∧ (∀ u, Files.url (Files.file_info get_output_dir job_id i) = Some u →
          u = "file://" +:+ get_output_dir job_id +:+ "/" +:+ i)
  ∧ (Files.url (Files.file_info get_output_dir job_id i) = None → Files.mtype (Files.file_info get_output_dir job_id i) = None).
Proof.
  rewrite <- ends_with_spec. unfold Files.file_info.
  destruct (Text.ends_with ".fits" i); cbn.
  - split; [by split; eauto|]. split; [by intros u [= <-]|done].
  - split; [split; [by intros [? ?]|done]|]. by split.
Qed.

(** X4: the message type of a FITS file: a name holding [-cat] and six
    digits is a table, before anything else is looked at; otherwise a name
    holding [_rsp_] but not [-moc] and six digits has no message type; every
    other FITS file is an image.  No file is ever given another type. *)
Theorem file_info_mtype job_id i stem :
  i = stem +:+ ".fits" →
  let has tag := ∃ pre d post, i = pre +:+ tag +:+ d +:+ post
                               ∧ String.length d = 6%nat
                               ∧ RawIngest.all_digits d = true in
  let rsp := ∃ pre post, i = pre +:+ "_rsp_" +:+ post in
  (has "-cat" → Files.mtype (Files.file_info get_output_dir job_id i) = Some "table.load.fits")
  ∧ (¬ has "-cat" → ¬ has "-moc" → rsp →
     Files.mtype (Files.file_info get_output_dir job_id i) = None)
  ∧ (¬ has "-cat" → has "-moc" ∨ ¬ rsp →
     Files.mtype (Files.file_info get_output_dir job_id i) = Some "image.load.fits").
Proof.
  clear url_for get_output_files.
  intros Hi has rsp. subst has rsp. cbn beta.
  rewrite <- !lit_digits_search_spec, <- contains_spec.
  assert (Text.ends_with ".fits" i = true) as He
    by (apply ends_with_spec; eauto).
  unfold Files.file_info. rewrite He. cbn.
  destruct (Text.lit_digits_search "-cat" 6 i),
    (Text.lit_digits_search "-moc" 6 i), (Text.contains "_rsp_" i);
    repeat split; try done; intros; try done; intuition congruence.
Qed.

(** X5: previews.  With no filter the 256-pixel previews are the links of
    the recorded files whose name holds [preview_256.png], in order (and
    likewise for 1024).  A filter only removes previews: a preview is kept
    when its file name holds one of the filter's strings, so an empty
    filter leaves none. *)
Theorem make_output_file_list_previews job_id files :
  get_output_files job_id = inr files →
  (∃ o, Files.make_output_file_list url_for get_output_dir get_output_files
      job_id None =
          inr (o,
               url_for "job_preview" job_id
                 <$> filter (λ i, Text.contains "preview_1024.png" i = true)
                       files,
               url_for "job_preview" job_id
                 <$> filter (λ i, Text.contains "preview_256.png" i = true)
                       files))
  ∧ (∃ o, Files.make_output_file_list url_for get_output_dir get_output_files
      job_id (Some []) = inr (o, [], []))
  ∧ (∀ fs o p1024 p256,
       Files.make_output_file_list url_for get_output_dir get_output_files
      job_id (Some fs) = inr (o, p1024, p256) →
       p256 = url_for "job_preview" job_id
                <$> filter (λ i, Exists (λ f, Text.contains f i = true) fs
                                 ∧ Text.contains "preview_256.png" i = true)
                      files
       ∧ p1024 = url_for "job_preview" job_id
                <$> filter (λ i, Exists (λ f, Text.contains f i = true) fs
                                 ∧ Text.contains "preview_1024.png" i = true)
                      files).
Proof.
  intros H. split; [|split].
  - eexists. rewrite (make_list_rows _ _ _ H). unfold Files.preview_names.
    do 3 f_equal; f_equal; apply list_filter_iff; intros i; cbn; done.
  - eexists. rewrite (make_list_rows _ _ _ H). unfold Files.preview_names.
    do 3 f_equal.
    + clear. induction files as [|i fs IH]; [done|].
      rewrite filter_cons. by case_decide.
    + clear. induction files as [|i fs IH]; [done|].
      rewrite filter_cons. by case_decide.
  - intros fs o p1024 p256. rewrite (make_list_rows _ _ _ H).
    intros [= <- <- <-]. unfold Files.preview_names.
    split; f_equal; apply list_filter_iff; intros i; cbn;
      rewrite andb_true_iff, existsb_exists, Exists_exists;
      setoid_rewrite <- list_elem_of_In; done.
Qed.

End FileLists.

(** ** The routes that change jobs *)

Ltac unfold_H :=
  unfold Routes.item, Routes.auth_username, Routes.call_change_state,
    Routes.call_change_qa, Routes.throw, Routes.flash, Routes.act,
    Routes.lift, Routes.try_any,
    mbind, Routes.H_bind, mret, Routes.H_ret in *.

Section RouteFacts.

Variable check_staff_password : string → bool.
Variable prepare_change_state :
  list string → string → string → string → option exn.
Variable prepare_change_qa :
  list string → string → string → string → option exn.
Variable state_get_name : string → exn + string.
Variable qa_get_name : string → exn + string.
Variable STATE_IFFY : list string.

(** X6: without credentials, or with a password the staff check refuses,
    both state-changing routes answer 401 with the login challenge, flash
    nothing and ask the store for no change. *)
Theorem routes_need_staff_password r t :
  (∀ a, Routes.auth r = Some a →
        check_staff_password (Routes.password a) = false) →
  Routes.job_change_state check_staff_password prepare_change_state
      state_get_name r t = (inr (Routes.authenticate r), t)
  ∧ Routes.job_change_qa check_staff_password prepare_change_qa qa_get_name
      STATE_IFFY r t = (inr (Routes.authenticate r), t)
  ∧ Routes.status (Routes.authenticate r) = 401.
Proof.
  intros Hno. unfold Routes.job_change_state, Routes.job_change_qa,
    Routes.requires_auth.
  destruct (Routes.auth r) as [a|]; [|done].
  by rewrite (Hno a eq_refl).
Qed.

Lemma names_of_ok t :
  Forall (λ x, ∃ n, qa_get_name x = inr n) STATE_IFFY →
  ∃ names, Routes.names_of qa_get_name STATE_IFFY t = (inr names, t).
Proof.
  induction 1 as [|x xs [n Hn] _ [ns IH]]; cbn.
  - by eexists.
  - unfold_H. rewrite Hn, IH. by eexists.
Qed.

Section Authenticated.

Variable r : Routes.request.
Variable a : Routes.authorization.
Hypothesis Hauth : Routes.auth r = Some a.
Hypothesis Hpass : check_staff_password (Routes.password a) = true.

Variable t : Routes.trail.

Local Abbreviation job_ids := (Routes.getlist (Routes.form r) "job_id").

Ltac enter_route :=
  unfold Routes.job_change_qa, Routes.job_change_state, Routes.requires_auth;
  rewrite Hauth, Hpass;
  unfold Routes.job_change_qa_body, Routes.job_change_state_body; unfold_H.

(** X7: a posted form that lacks one of the fields the route reads by
    subscript is refused with the key error for the first missing field in
    the order the route reads them: the state ([qa_state] or [newstate]),
    then [message], then [url].  Whatever else is missing, the error names
    that field, nothing is flashed and no change is asked of the store. *)
Theorem routes_refuse_incomplete_form :
  (Routes.get (Routes.form r) "qa_state" = None →
   Routes.job_change_qa check_staff_password prepare_change_qa qa_get_name
      STATE_IFFY r t = (inl (Routes.BadRequestKeyError "qa_state"), t))
  ∧ (is_Some (Routes.get (Routes.form r) "qa_state") →
     Routes.get (Routes.form r) "message" = None →
     Routes.job_change_qa check_staff_password prepare_change_qa qa_get_name
      STATE_IFFY r t = (inl (Routes.BadRequestKeyError "message"), t))
  ∧ (is_Some (Routes.get (Routes.form r) "qa_state") →
     is_Some (Routes.get (Routes.form r) "message") →
     Routes.get (Routes.form r) "url" = None →
     Routes.job_change_qa check_staff_password prepare_change_qa qa_get_name
      STATE_IFFY r t = (inl (Routes.BadRequestKeyError "url"), t))
  ∧ (Routes.get (Routes.form r) "newstate" = None →
     Routes.job_change_state check_staff_password prepare_change_state
      state_get_name r t = (inl (Routes.BadRequestKeyError "newstate"), t))
  ∧ (is_Some (Routes.get (Routes.form r) "newstate") →
     Routes.get (Routes.form r) "message" = None →
     Routes.job_change_state check_staff_password prepare_change_state
      state_get_name r t = (inl (Routes.BadRequestKeyError "message"), t))
  ∧ (is_Some (Routes.get (Routes.form r) "newstate") →
     is_Some (Routes.get (Routes.form r) "message") →
     Routes.get (Routes.form r) "url" = None →
     Routes.job_change_state check_staff_password prepare_change_state
      state_get_name r t = (inl (Routes.BadRequestKeyError "url"), t)).
Proof.
  repeat split.
  - intros Hq. enter_route. by rewrite Hq.
  - intros [q Hq] Hm. enter_route. by rewrite Hq, Hm.
  - intros [q Hq] [m Hm] Hu. enter_route. by rewrite Hq, Hm, Hu.
  - intros Hq. enter_route. by rewrite Hq.
  - intros [q Hq] Hm. enter_route. by rewrite Hq, Hm.
  - intros [q Hq] [m Hm] Hu. enter_route. by rewrite Hq, Hm, Hu.
Qed.

Section Posted.

Variable message url : string.
Hypothesis Hmessage : Routes.get (Routes.form r) "message" = Some message.
Hypothesis Hurl : Routes.get (Routes.form r) "url" = Some url.

Section State.

Variable newstate : string.
Hypothesis Hnew : Routes.get (Routes.form r) "newstate" = Some newstate.

Local Abbreviation the_change :=
  (Routes.ChangeState job_ids newstate message (Routes.username a)).

(** X8: [job_change_state] asks the store for the change exactly once, with
    the posted ids, state and message and the user's name.  It flashes the
    confirmation and redirects to the posted address only when that call
    has returned and the state has a name; an exception of the call (or of
    the name lookup) leaves the route as it is, with nothing flashed. *)
Theorem job_change_state_outcome :
  ∃ outcome said,
    Routes.job_change_state check_staff_password prepare_change_state
      state_get_name r t =
      (inl outcome,
       {| Routes.flashed := Routes.flashed t ++ said;
          Routes.actions := Routes.actions t ++ [the_change] |})
    ∧ (∀ e, prepare_change_state job_ids newstate message
              (Routes.username a) = Some e →
            outcome = e ∧ said = [])
    ∧ (prepare_change_state job_ids newstate message (Routes.username a)
         = None →
       (∀ e, state_get_name newstate = inl e → outcome = e ∧ said = [])
       ∧ (∀ name, state_get_name newstate = inr name →
            outcome = Routes.HTTPRedirect url
            ∧ said = ["The status has been updated to " +:+ name +:+ "."])).
Proof.
  enter_route. rewrite Hnew, Hmessage, Hurl, Hauth. cbn.
  destruct (prepare_change_state _ _ _ _) as [e|]; cbn.
  - exists e, []. rewrite app_nil_r. split; [done|].
    split; [by intros ? [= ->]|done].
  - destruct (state_get_name newstate) as [e|name]; cbn.
    + exists e, []. rewrite app_nil_r. split; [done|]. split; [done|].
      intros _. split; [by intros ? [= ->]|done].
    + eexists _, _. split; [done|]. split; [done|]. intros _.
      split; [done|]. by intros ? [= ->].
Qed.

End State.

Section QA.

Variable qa_state : string.
Hypothesis Hqa : Routes.get (Routes.form r) "qa_state" = Some qa_state.
Hypothesis Hnames : Forall (λ x, ∃ n, qa_get_name x = inr n) STATE_IFFY.

Local Abbreviation the_change :=
  (Routes.ChangeQA job_ids qa_state message (Routes.username a)).

Lemma change_qa_needs_message :
  message = "" → qa_state ∈ STATE_IFFY →
  ∃ names,
    Routes.names_of qa_get_name STATE_IFFY t = (inr names, t)
    ∧ Routes.job_change_qa check_staff_password prepare_change_qa qa_get_name
      STATE_IFFY r t =
        (inl (Routes.HTTPRedirect url),
         {| Routes.flashed :=
              Routes.flashed t ++ [Routes.msg_need_message names];
            Routes.actions := Routes.actions t |}).
Proof.
  intros Hm Hin.
  destruct (names_of_ok t Hnames) as [names Hn]. exists names.
  split; [done|]. enter_route. rewrite Hqa, Hmessage, Hurl, Hauth.
  rewrite !bool_decide_eq_true_2 by done. cbn. by rewrite Hn.
Qed.

Lemma change_qa_attempt :
  message ≠ "" ∨ qa_state ∉ STATE_IFFY →
  Routes.job_change_qa check_staff_password prepare_change_qa qa_get_name
      STATE_IFFY r t =
    (inl (Routes.HTTPRedirect url),
     {| Routes.flashed :=
          Routes.flashed t
          ++ [match prepare_change_qa job_ids qa_state message
                      (Routes.username a), qa_get_name qa_state with
              | None, inr name => Routes.msg_qa_updated name
              | _, _ => Routes.msg_qa_unsuccessful
              end];
        Routes.actions := Routes.actions t ++ [the_change] |}).
Proof.
  intros Hcond. enter_route. rewrite Hqa, Hmessage, Hurl, Hauth.
  replace (bool_decide (message = "") && bool_decide (qa_state ∈ STATE_IFFY))
    with false.
  2:{ symmetry. apply andb_false_iff. destruct Hcond.
      - left. by apply bool_decide_eq_false_2.
      - right. by apply bool_decide_eq_false_2. }
  cbn.
  destruct (prepare_change_qa _ _ _ _); cbn; [done|].
  by destruct (qa_get_name qa_state).
Qed.

Lemma change_qa_split :
  (message = "" ∧ qa_state ∈ STATE_IFFY)
  ∨ (message ≠ "" ∨ qa_state ∉ STATE_IFFY).
Proof.
  destruct (decide (message = "")); [|by right; left].
  destruct (decide (qa_state ∈ STATE_IFFY)); [by left|by right; right].
Qed.

(** X9: [job_change_qa] always ends by redirecting to the posted address,
    having flashed exactly one message and asked the store for at most one
    change, whatever [prepare_change_qa] does: the bare [except] swallows
    every exception of the change. *)
Theorem job_change_qa_always_redirects :
  ∃ t', Routes.job_change_qa check_staff_password prepare_change_qa qa_get_name
      STATE_IFFY r t = (inl (Routes.HTTPRedirect url), t')
        ∧ length (Routes.flashed t') = S (length (Routes.flashed t))
        ∧ (Routes.actions t' = Routes.actions t
           ∨ Routes.actions t' = Routes.actions t ++ [the_change]).
Proof.
  destruct change_qa_split as [[Hm Hin]|Hcond].
  - destruct (change_qa_needs_message Hm Hin) as (names & _ & ->).
    eexists. split; [done|]. cbn. rewrite length_app. cbn.
    split; [lia|by left].
  - rewrite (change_qa_attempt Hcond). eexists. split; [done|]. cbn.
    rewrite length_app. cbn. split; [lia|by right].
Qed.

(** X10: a change to one of the doubtful QA states needs a message: the
    store is asked for the change exactly when the message is not empty or
    the state is not in [STATE_IFFY]; otherwise the user is asked for a
    message and nothing is changed. *)
Theorem job_change_qa_needs_message :
  (message = "" ∧ qa_state ∈ STATE_IFFY →
   Routes.actions (Routes.job_change_qa check_staff_password prepare_change_qa qa_get_name
      STATE_IFFY r t).2 = Routes.actions t
   ∧ ∃ names,
       Routes.flashed (Routes.job_change_qa check_staff_password prepare_change_qa qa_get_name
      STATE_IFFY r t).2 =
         Routes.flashed t
         ++ ["You must provide a message to change QA state to "
             +:+ Routes.join_or names +:+ "."]
       ∧ Forall2 (λ x n, qa_get_name x = inr n) STATE_IFFY names)
  ∧ (message ≠ "" ∨ qa_state ∉ STATE_IFFY →
     Routes.actions (Routes.job_change_qa check_staff_password prepare_change_qa qa_get_name
      STATE_IFFY r t).2 = Routes.actions t ++ [the_change]).
Proof.
  split.
  - intros [Hm Hin].
    destruct (change_qa_needs_message Hm Hin) as (names & Hn & ->).
    split; [done|]. exists names. split; [done|].
    clear -Hn. revert names t Hn.
    induction STATE_IFFY as [|x xs IH]; intros names t; cbn.
    + by intros [= <-].
    + unfold_H. destruct (qa_get_name x) as [e|n] eqn:Hx; [done|].
      destruct (Routes.names_of qa_get_name xs t) as [[e|ns] t1] eqn:Hxs;
        [done|].
      intros [= <- <-]. constructor; [done|]. by eapply IH.
  - intros Hcond. by rewrite (change_qa_attempt Hcond).
Qed.

(** X11: what the user is told about a QA change that was attempted.  The
    confirmation is flashed only when [prepare_change_qa] has returned and
    the state has a name.  When the change raises, or when it has been made
    but the name lookup raises, the user is told the attempt was
    unsuccessful, and the exception goes no further. *)
Theorem job_change_qa_report :
  message ≠ "" ∨ qa_state ∉ STATE_IFFY →
  let made := prepare_change_qa job_ids qa_state message (Routes.username a) in
  (Routes.job_change_qa check_staff_password prepare_change_qa qa_get_name
      STATE_IFFY r t).1 = inl (Routes.HTTPRedirect url)
  ∧ (∀ name, Routes.msg_qa_updated name ∈ Routes.flashed (Routes.job_change_qa check_staff_password prepare_change_qa qa_get_name
      STATE_IFFY r t).2 →
       Routes.msg_qa_updated name ∉ Routes.flashed t →
       made = None ∧ qa_get_name qa_state = inr name)
  ∧ ((∃ e, made = Some e) ∨ (∃ e, qa_get_name qa_state = inl e) →
     Routes.flashed (Routes.job_change_qa check_staff_password prepare_change_qa qa_get_name
      STATE_IFFY r t).2 =
       Routes.flashed t ++ ["UNSUCCESSFUL attempt to update qa status!"]).
Proof.
  intros Hcond made. subst made. rewrite (change_qa_attempt Hcond). cbn.
  split; [done|]. split.
  - intros name [Hin|Hin]%elem_of_app Hnot; [done|].
    apply list_elem_of_singleton in Hin.
    destruct (prepare_change_qa _ _ _ _) as [e|].
    + exfalso. revert Hin. unfold Routes.msg_qa_updated,
        Routes.msg_qa_unsuccessful. clear.
      intros Hin. apply (f_equal (String.substring 0 3)) in Hin.
      by cbn in Hin.
    + destruct (qa_get_name qa_state) as [e|n].
      * exfalso. revert Hin. unfold Routes.msg_qa_updated,
          Routes.msg_qa_unsuccessful. clear.
        intros Hin. apply (f_equal (String.substring 0 3)) in Hin.
        by cbn in Hin.
      * split; [done|]. f_equal. revert Hin. unfold Routes.msg_qa_updated.
        clear. intros Hin.
        assert (∀ p x y, p +:+ x = p +:+ y → x = y) as Hcancel.
        { induction p as [|c p IH]; intros x y; [done|].
          rewrite !append_cons. intros [= ?]. by apply IH. }
        apply Hcancel in Hin. symmetry.
        revert n Hin. induction name as [|c name IH]; intros [|d n]; cbn;
          try done.
        -- rewrite append_cons. intros [= <- Hx]. by destruct n.
        -- rewrite append_cons. intros [= -> Hx]. by destruct name.
        -- rewrite !append_cons. intros [= -> Hx]. f_equal. by apply IH.
  - intros [[e ->]|[e He]]; [done|]. rewrite He.
    by destruct (prepare_change_qa _ _ _ _).
Qed.

End QA.

End Posted.

End Authenticated.

End RouteFacts.

(** ** The job list query *)

Lemma foldl_insert_lookup (value : string → Py.value) params
    (kw : gmap string Py.value) k :
  foldl (λ kw key, <[key := value key]> kw) kw params !! k =
    if decide (k ∈ params) then Some (value k) else kw !! k.
Proof.
  revert kw. induction params as [|p params IH]; intros kw; cbn.
  - done.
  - rewrite IH. destruct (decide (k ∈ params)) as [Hin|Hnin].
    + rewrite decide_True by (by right). done.
    + destruct (decide (k = p)) as [->|Hne].
      * rewrite decide_True by (by left). by rewrite lookup_insert_eq.
      * rewrite decide_False by (by intros [?|?]%elem_of_cons).
        by rewrite lookup_insert_ne.
Qed.

Lemma job_list_query_lookup obs_query_keys request_args k :
  Routes.job_list_query obs_query_keys request_args !! k =
    Routes.blank_to_none <$>
      (if decide (k ∈ Routes.regular_params ++ obs_query_keys)
       then Some (Routes.opt_value (Routes.get request_args k))
       else if decide (k = "mode")
       then Some (Py.VStr (default "JSAProc"
                             (Routes.get request_args "mode")))
       else if decide (k = "state")
       then Some (Py.VList (Py.VStr <$> Routes.getlist request_args "state"))
       else None).
Proof.
  unfold Routes.job_list_query. rewrite lookup_fmap, foldl_insert_lookup.
  case_decide; [done|]. f_equal.
  destruct (decide (k = "mode")) as [->|?]; [by rewrite lookup_insert_eq|].
  rewrite lookup_insert_ne by done.
  destruct (decide (k = "state")) as [->|?]; [by rewrite lookup_insert_eq|].
  by rewrite lookup_insert_ne.
Qed.

(** X12: the query that [job_list] keeps holds an entry for [state], for
    [mode] and for every parameter name, and no entry is the empty string:
    a form field submitted empty is kept as [None]. *)
Theorem job_list_query_has_no_empty_string obs_query_keys request_args k :
  (is_Some (Routes.job_list_query obs_query_keys request_args !! k)
   ↔ k ∈ ["state"; "mode"] ++ Routes.regular_params ++ obs_query_keys)
  ∧ Routes.job_list_query obs_query_keys request_args !! k
    ≠ Some (Py.VStr "").
Proof.
  rewrite job_list_query_lookup. split.
  - rewrite fmap_is_Some.
    change (["state"; "mode"] ++ ?l) with ("state" :: "mode" :: l).
    rewrite !elem_of_cons. repeat case_decide; subst; split; eauto;
      try (by intros [? ?]); intuition congruence.
  - assert (∀ v, Routes.blank_to_none v ≠ Py.VStr "") as Hblank.
    { intros v. unfold Routes.blank_to_none. destruct v as [| | |s|]; cbn; try done.
      destruct (String.eqb s "") eqn:Hs; [done|]. intros [= ->]. done. }
    destruct (if decide _ then _ else _) as [v|]; cbn; [|done].
    intros [= Hv]. by apply Hblank in Hv.
Qed.

(** X13: for every parameter name, a field that is submitted empty and a
    field that is not submitted at all give the same entry, [None]; any
    other value is kept as it was submitted (the first one, when the field
    is repeated). *)
Theorem job_list_query_param obs_query_keys request_args k :
  k ∈ Routes.regular_params ++ obs_query_keys →
  Routes.job_list_query obs_query_keys request_args !! k =
    Some (match Routes.get request_args k with
          | None => Py.VNone
          | Some s => if decide (s = "") then Py.VNone else Py.VStr s
          end).
Proof.
  intros Hk. rewrite job_list_query_lookup, decide_True by done. cbn.
  f_equal. unfold Routes.blank_to_none.
  destruct (Routes.get request_args k) as [s|]; cbn; [|done].
  destruct (decide (s = "")) as [->|Hne]; [done|].
  by apply String.eqb_neq in Hne as ->.
Qed.

(** X14: [mode] and [state], when [ObsQueryDict] has no key of that name.
    The mode is [JSAProc] when the field is not submitted, but [None] when
    it is submitted empty: the default does not come back.  The state is
    always a list, empty when no state is submitted. *)
Theorem job_list_query_mode_state obs_query_keys request_args :
  "mode" ∉ obs_query_keys → "state" ∉ obs_query_keys →
  Routes.job_list_query obs_query_keys request_args !! "mode" =
    Some (match Routes.get request_args "mode" with
          | None => Py.VStr "JSAProc"
          | Some s => if decide (s = "") then Py.VNone else Py.VStr s
          end)
  ∧ Routes.job_list_query obs_query_keys request_args !! "state" =
      Some (Py.VList (Py.VStr <$> Routes.getlist request_args "state")).
Proof.
  intros Hm Hs.
  assert (∀ k, k ∉ obs_query_keys → k ∉ Routes.regular_params →
               k ∉ Routes.regular_params ++ obs_query_keys) as Hnot.
  { intros k ? ? [?|?]%elem_of_app; done. }
  assert ("mode" ∉ Routes.regular_params ++ obs_query_keys) as Hm'.
  { apply Hnot; [done|]. intros Hin. apply list_elem_of_In in Hin.
    cbn in Hin. intuition discriminate. }
  assert ("state" ∉ Routes.regular_params ++ obs_query_keys) as Hs'.
  { apply Hnot; [done|]. intros Hin. apply list_elem_of_In in Hin.
    cbn in Hin. intuition discriminate. }
  rewrite !job_list_query_lookup.
  destruct (decide ("mode" ∈ _)); [done|].
  destruct (decide ("state" ∈ _)); [done|].
  cbn. split; [|done]. f_equal. unfold Routes.blank_to_none.
  by destruct (Routes.get request_args "mode") as [[|c s]|].
Qed.

(** ** The OMP and JCMT databases *)

(** X15: [OMPDB(write_access)] reaches [Sybase.connect] only for [None],
    ['omp'] and ['jcmt']; the default takes the read-only [hdr_database]
    credentials and only ['jcmt'] leaves the OMP site configuration.  Any
    other request is refused before a connection is tried, with a
    [NameError] (the intended [JSAProcError] is not imported), whatever the
    server would have answered. *)
Theorem OMPDB_init_write_access config_get Sybase_connect :
  let connect config credentials :=
    Sybase_connect (config_get config credentials "server")
      (config_get config credentials "user")
      (config_get config credentials "password") in
  OMP.OMPDB_init config_get Sybase_connect Py.VNone
    = connect OMP.SiteConfig "hdr_database"
  ∧ OMP.OMPDB_init config_get Sybase_connect (Py.VStr "omp")
    = connect OMP.SiteConfig "database"
  ∧ OMP.OMPDB_init config_get Sybase_connect (Py.VStr "jcmt")
    = connect OMP.JSAProcConfig "database_jcmt"
  ∧ ∀ write_access,
      write_access ∉ [Py.VNone; Py.VStr "omp"; Py.VStr "jcmt"] →
      OMP.OMPDB_init config_get Sybase_connect write_access
      = inl (Raise (OtherError "NameError")
               "name 'JSAProcError' is not defined").
Proof.
  cbn zeta. repeat split.
  intros write_access Hnot. unfold OMP.OMPDB_init, OMP.credentials_for.
  destruct write_access as [| | |s|]; try done.
  - exfalso. apply Hnot. by left.
  - destruct (String.eqb s "omp") eqn:Ho.
    { apply String.eqb_eq in Ho as ->. exfalso. apply Hnot.
      right. by left. }
    destruct (String.eqb s "jcmt") eqn:Hj; [|done].
    apply String.eqb_eq in Hj as ->. exfalso. apply Hnot.
    right. right. by left.
Qed.

(** X16: in the query of [find_obs_for_ingestion] every placeholder has its
    argument and every argument its placeholder: [@us] occurs, and is
    bound, exactly when a start date is given, and likewise [@ue] for the
    end date.  The conditions on the age of the observation and on its file
    transfers are always part of the query, and the comparison with the
    observation log exactly when the status check is not disabled. *)
Theorem ingestion_query_placeholders utdate_start utdate_end
    no_status_check :
  let '(query, args) :=
    OMP.ingestion_query utdate_start utdate_end no_status_check in
  (Text.contains "@us" query = true ↔ is_Some utdate_start)
  ∧ (Text.contains "@ue" query = true ↔ is_Some utdate_end)
  ∧ args = (match utdate_start with Some us => [("@us", us)] | None => [] end)
           ++ (match utdate_end with Some ue => [("@ue", ue)] | None => [] end)
  ∧ Text.contains OMP.where_finished query = true
  ∧ Text.contains OMP.where_transferred query = true
  ∧ Text.contains "omp..ompobslog" query = negb no_status_check.
Proof.
  assert (∀ (b : bool) (o : option Z),
            b = (if o is Some _ then true else false) →
            (b = true ↔ is_Some o))
    as Hiff.
  { intros b [z|] ->.
    - split; eauto.
    - split; [done|]. by intros [? ?]. }
  destruct utdate_start as [us|], utdate_end as [ue|], no_status_check;
    cbn [OMP.ingestion_query app];
    (split; [apply Hiff; by vm_compute|]);
    (split; [apply Hiff; by vm_compute|]);
    (split; [done|]); repeat split; by vm_compute.
Qed.

(** The loop of [find_obs_for_ingestion] keeps one identifier per row the
    cursor yields, in the cursor's order. *)
Lemma fetch_obsids_all pending result :
  OMP.fetch_obsids pending result = result ++ pending.
Proof.
  revert result. induction pending as [|row rest IH]; intros result; cbn.
  - by rewrite app_nil_r.
  - by rewrite IH, <- app_assoc.
Qed.

Section TransactionFacts.

Variable lock_enter : option exn.
Variable lock_exit : option exn → exn + bool.
Variable execute : string → list (string * string) → option exn.
Variable commit : option exn.
Variable rollback : option exn.


End TransactionFacts.

(** ** More on raw ingestion *)

Lemma path_join_relative a b :
  String.prefix "/" b = false →
  ∃ sep, (sep = "" ∨ sep = "/") ∧ Py.path_join a b = a +:+ sep +:+ b.
Proof.
  intros Hb. unfold Py.path_join. rewrite Hb.
  destruct (bool_decide (a = "") || Py.ends_with_slash a).
  - exists "". split; [by left|reflexivity].
  - exists "/". split; [by right|reflexivity].
Qed.

Lemma prefix_app a b : String.prefix a (a +:+ b) = true.
Proof. apply prefix_spec. by exists b. Qed.

Lemma prefix_trans a b c :
  String.prefix a b = true → String.prefix b c = true →
  String.prefix a c = true.
Proof.
  intros [x ->]%prefix_spec [y ->]%prefix_spec. apply prefix_spec.
  exists (x +:+ y). clear. induction a as [|ch a IH]; [done|].
  rewrite !append_cons. by f_equal.
Qed.

Lemma path_join_under a b :
  String.prefix "/" b = false → String.prefix a (Py.path_join a b) = true.
Proof.
  intros Hb. destruct (path_join_relative a b Hb) as (sep & _ & ->).
  apply prefix_app.
Qed.

Lemma digit_not_slash c s :
  RawIngest.is_digit c = true → String.prefix "/" (String c s) = false.
Proof.
  intros Hc. unfold String.prefix.
  destruct (ascii_dec "/" c) as [<-|]; [|done]. by vm_compute in Hc.
Qed.

Lemma slash_prefix_append c o t :
  String.prefix "/" (String c o +:+ t) = String.prefix "/" (String c o).
Proof.
  rewrite append_cons. unfold String.prefix.
  destruct (ascii_dec "/" c); [|done]. by destruct (o +:+ t), o.
Qed.

(** X18: a date found by the search is eight digits long, and the three slices
    the function takes of it are its year, month and day: four, two and two
    digits that put together give the date back. *)
Theorem date_slices obsid date :
  RawIngest.obsid_date_search obsid = Some date →
  let year := RawIngest.slice 0 4 date in
  let month := RawIngest.slice 4 6 date in
  let day := RawIngest.slice_from 6 date in
  year +:+ month +:+ day = date
  ∧ String.length year = 4%nat ∧ String.length month = 2%nat
  ∧ String.length day = 2%nat
  ∧ RawIngest.all_digits year = true ∧ RawIngest.all_digits month = true
  ∧ RawIngest.all_digits day = true.
Proof.
  intros (pre & post & _ & Hlen & Hdig)%search_sound.
  do 8 (destruct date as [|? date]; [cbn in Hlen; lia|]).
  destruct date; [|cbn in Hlen; lia]. cbn in Hdig.
  repeat (apply andb_prop in Hdig as [? Hdig]).
  unfold RawIngest.slice, RawIngest.slice_from.
  cbn -[RawIngest.is_digit].
  repeat match goal with
         | Hd : RawIngest.is_digit _ = true |- _ => rewrite !Hd; clear Hd
         end.
  by repeat split.
Qed.

Lemma append_assoc a b c : (a +:+ b) +:+ c = a +:+ b +:+ c.
Proof. induction a as [|ch a IH]; [done|]. rewrite !append_cons. by f_equal. Qed.

Lemma append_nonempty a d : d ≠ "" → a +:+ d ≠ "".
Proof. by destruct a, d. Qed.

Lemma rev_app_append a b acc :
  String.rev_app (a +:+ b) acc = String.rev_app b (String.rev_app a acc).
Proof. revert acc. induction a as [|c a IH]; intros acc; [done|]. apply IH. Qed.

Lemma rev_app_digits d acc :
  d ≠ "" → RawIngest.all_digits d = true →
  String.prefix "/" (String.rev_app d acc) = false.
Proof.
  revert acc. induction d as [|c d IH]; intros acc Hne; [done|].
  cbn [RawIngest.all_digits]. intros [Hc Hd]%andb_prop.
  destruct d as [|c' d].
  - by apply digit_not_slash.
  - cbn [String.rev_app]. by apply (IH (String c acc)).
Qed.

Lemma ends_with_digits a d :
  d ≠ "" → RawIngest.all_digits d = true →
  Py.ends_with_slash (a +:+ d) = false.
Proof.
  intros Hne Hd. unfold Py.ends_with_slash, String.rev.
  rewrite rev_app_append. by apply rev_app_digits.
Qed.

(** A directory whose name ends in a digit is joined to a relative name by
    one slash. *)
Lemma path_join_after_digits a d b :
  d ≠ "" → RawIngest.all_digits d = true → String.prefix "/" b = false →
  Py.path_join (a +:+ d) b = (a +:+ d) +:+ "/" +:+ b.
Proof.
  intros Hne Hd Hb. unfold Py.path_join.
  rewrite Hb, ends_with_digits by done.
  by rewrite bool_decide_eq_false_2 by by apply append_nonempty.
Qed.

Lemma digits_relative d :
  d ≠ "" → RawIngest.all_digits d = true → String.prefix "/" d = false.
Proof.
  destruct d as [|c d]; [done|]. cbn [RawIngest.all_digits].
  intros _ [? _]%andb_prop. by apply digit_not_slash.
Qed.

Lemma log_dir_text base date :
  String.length date = 8%nat → RawIngest.all_digits date = true →
  ∃ stem,
    Py.path_join base (RawIngest.slice 0 4 date)
      = stem +:+ RawIngest.slice 0 4 date
    ∧ RawIngest.log_dir_of base date =
        ((((stem +:+ RawIngest.slice 0 4 date) +:+ "/")
          +:+ RawIngest.slice 4 6 date) +:+ "/")
        +:+ RawIngest.slice_from 6 date
    ∧ RawIngest.slice_from 6 date ≠ ""
    ∧ RawIngest.all_digits (RawIngest.slice_from 6 date) = true.
Proof.
  intros Hlen Hdig.
  do 8 (destruct date as [|? date]; [cbn in Hlen; lia|]).
  destruct date; [|cbn in Hlen; lia]. cbn in Hdig.
  repeat (apply andb_prop in Hdig as [? Hdig]).
  unfold RawIngest.log_dir_of, RawIngest.slice, RawIngest.slice_from.
  cbn [String.substring String.length Nat.sub].
  set (year := String a (String a0 (String a1 (String a2 "")))).
  set (month := String a3 (String a4 "")).
  set (day := String a5 (String a6 "")).
  assert (Hy : year ≠ "" ∧ RawIngest.all_digits year = true).
  { split; [done|]. cbn. by rewrite !andb_true_r, !andb_true_iff. }
  assert (Hm : month ≠ "" ∧ RawIngest.all_digits month = true).
  { split; [done|]. cbn. by rewrite !andb_true_r, !andb_true_iff. }
  assert (Hd : day ≠ "" ∧ RawIngest.all_digits day = true).
  { split; [done|]. cbn. by rewrite !andb_true_r, !andb_true_iff. }
  destruct Hy as [Hy1 Hy2], Hm as [Hm1 Hm2], Hd as [Hd1 Hd2].
  destruct (path_join_relative base year) as (sep & _ & Hj);
    [by apply digits_relative|].
  exists (base +:+ sep). rewrite Hj, <- append_assoc.
  split; [done|]. split; [|done].
  rewrite path_join_after_digits by (done || by apply digits_relative).
  rewrite <- (append_assoc _ "/" month).
  rewrite path_join_after_digits by (done || by apply digits_relative).
  by rewrite <- (append_assoc _ "/" day).
Qed.

(** X19: the log file that a run which is not a dry run opens, or tries to
    open, is named by text alone.  The log directory is the directory of
    the ingestion logs joined to the year, followed by a slash, the month,
    a slash and the day of the date found in the identifier.  For an
    identifier that does not begin with a slash the file is the log
    directory, a slash, the identifier and [.log]; for one that does, the
    join drops the log directory and the file is the identifier with
    [.log] added.  Nothing confines the file to the log directory: the
    identifier is put into the path as it is, slashes and dots included. *)
Theorem ingest_log_location env obsid date w path :
  RawIngest.obsid_date_search obsid = Some date →
  EvOpen path
    ∈ new_calls w (RawIngest.ingest_raw_observation env obsid false w).2 →
  ∃ base,
    RawIngest.get_misc_log_dir env "rawingest" = inr base
    ∧ RawIngest.log_dir_of base date =
        Py.path_join base (RawIngest.slice 0 4 date)
        +:+ "/" +:+ RawIngest.slice 4 6 date
        +:+ "/" +:+ RawIngest.slice_from 6 date
    ∧ (String.prefix "/" obsid = false →
       path = RawIngest.log_dir_of base date +:+ "/" +:+ obsid +:+ ".log")
    ∧ (String.prefix "/" obsid = true → path = obsid +:+ ".log").
Proof.
  intros Hs Hin.
  destruct (ingest_run_opens env obsid w date Hs path Hin)
    as (base & Hbase & ->).
  exists base. split; [done|].
  destruct (search_sound _ _ Hs) as (pre & post & _ & Hlen & Hdig).
  destruct (log_dir_text base date Hlen Hdig)
    as (stem & Hstem & Hdir & Hd1 & Hd2).
  split; [|split].
  - rewrite Hdir, Hstem. by rewrite !append_assoc.
  - intros Hrel. unfold RawIngest.log_file_of. rewrite Hdir.
    rewrite path_join_after_digits; [done..|].
    destruct obsid as [|c o]; [by vm_compute|].
    by rewrite slash_prefix_append.
  - intros Habs. unfold RawIngest.log_file_of, Py.path_join.
    destruct obsid as [|c o]; [done|].
    by rewrite slash_prefix_append, Habs.
Qed.

(** ** More on the runner *)

(** X20: the pipeline is started only for a job this run has claimed, and only
    when its input file list exists: it is the second call of the run,
    right after the claim, made once, with the file list of the job and the
    mode and parameters of its row; unless the run is forced, the job was
    [WAITING] when the run began. *)
Theorem pipeline_only_for_claimed_job env job_id (force : bool) w i id ifl
    m p :
  new_calls w (run_a_job env job_id force w).2 !! i
    = Some (EvPipeline id ifl m p) →
  i = 1%nat ∧ id = job_id ∧ ifl = input_file_list_of env job_id
  ∧ path_exists env ifl = true
  ∧ ∃ j, jobs (db w) !! job_id = Some j
         ∧ m = mode j ∧ p = parameters j
         ∧ (force = false → state j = WAITING)
         ∧ ∃ d1, Store.change_state job_id RUNNING (msg_claim env)
                   (if force then None else Some WAITING) (db w) = inr d1.
Proof.
  run_cases env job_id force w; wrapper_cases job_id; intros Hi;
    repeat (destruct i as [|i]; cbn in Hi; try discriminate Hi);
    injection Hi as <- <- <- <-;
    pose proof Hclaim as (j0 & Hj0 & Hst & ->)%change_state_inv;
    cbn in Hrow; rewrite lookup_insert_eq in Hrow; injection Hrow as <-;
    (split; [done|]); (split; [done|]); (split; [done|]); (split; [done|]);
    exists j0; (split; [done|]); (split; [done|]); (split; [done|]);
    (split; [|eauto]); intros ->; by apply Hst.
Qed.

Lemma claim_rejected job_id message d :
  (∀ j, jobs d !! job_id = Some j → state j ≠ WAITING) →
  ∃ e, Store.change_state job_id RUNNING message (Some WAITING) d = inl e.
Proof.
  intros Hnot. unfold Store.change_state.
  destruct (jobs d !! job_id) as [j|] eqn:Hj; [|eauto].
  rewrite bool_decide_eq_false_2 by (by apply Hnot). eauto.
Qed.

Local Abbreviation not_waiting job_id d :=
  (∀ j : Job, jobs d !! job_id = Some j → state j ≠ WAITING).

Lemma body_leaves_not_waiting env job_id (force : bool) w r w' :
  (∀ d, others_act env d = d) →
  run_a_job_body env job_id force w = (r, w') →
  not_waiting job_id (db w').
Proof.
  intros Hquiet.
  run_cases env job_id force w; rewrite ?Hquiet in *;
    intros [= <- <-]; cbn; intros j Hj.
  - intros Hs. unfold Store.change_state in Hclaim.
    rewrite Hj in Hclaim. destruct force; [done|].
    by rewrite bool_decide_eq_true_2 in Hclaim.
  - apply claimed_row in Hclaim as (j0 & _ & Hj1 & _).
    rewrite Hj1 in Hj. by injection Hj as <-.
  - rewrite Hrow in Hj. injection Hj as <-.
    apply claimed_row in Hclaim as (j0 & _ & Hj1 & _).
    rewrite Hj1 in Hrow. by injection Hrow as <-.
  - rewrite Hrow in Hj. injection Hj as <-.
    apply claimed_row in Hclaim as (j0 & _ & Hj1 & _).
    rewrite Hj1 in Hrow. by injection Hrow as <-.
  - rewrite Hrow in Hj. injection Hj as <-.
    apply claimed_row in Hclaim as (j0 & _ & Hj1 & _).
    rewrite Hj1 in Hrow. by injection Hrow as <-.
  - apply change_state_inv in Hproc as (j' & _ & _ & ->). cbn in Hj.
    rewrite lookup_insert_eq in Hj. by injection Hj as <-.
Qed.

(** X21: a job is not run twice.  When nobody else touches the store, a run of
    [run_a_job], whatever its outcome, leaves the job in a state from which
    a second, unforced run is turned away at the claim: it returns [None],
    changes nothing in the store and starts no pipeline. *)
Theorem second_run_is_turned_away env job_id (force : bool) w :
  (∀ d, others_act env d = d) →
  let w1 := (run_a_job env job_id force w).2 in
  run_a_job env job_id false w1 =
    (inr None,
     after w1 (db w1)
       [(INFO, msg_about_to_run job_id); (LERROR, msg_not_waiting job_id)]
       [claim_event env job_id false]).
Proof.
  intros Hquiet w1.
  assert (not_waiting job_id (db w1)) as Hnot.
  { subst w1. rewrite run_a_job_unfold.
    destruct (run_a_job_body env job_id force w) as [[e|r] w'] eqn:Hb.
    - pose proof (body_leaves_not_waiting _ _ _ _ _ _ Hquiet Hb) as Hw'.
      destruct (Store.change_state job_id ERROR (msg_failure e) None (db w'))
        as [e'|d] eqn:Hw; cbn; [done|].
      apply change_state_inv in Hw as (j' & _ & _ & ->). cbn.
      intros j Hj. rewrite lookup_insert_eq in Hj. by injection Hj as <-.
    - by apply (body_leaves_not_waiting _ _ _ _ _ _ Hquiet Hb). }
  destruct (claim_rejected job_id (msg_claim env) (db w1) Hnot) as [e He].
  rewrite run_a_job_unfold. by rewrite (body_lost env job_id false w1 e He).
Qed.

(** ** The properties at concrete inputs *)

Lemma make_output_file_list_no_rows_witness :
  Files.make_output_file_list Fixture.url_for Fixture.output_dir
    Fixture.files_of 2 None = inr ([], [], []).
Proof.
  apply (proj1 (make_output_file_list_no_rows Fixture.url_for
                  Fixture.output_dir Fixture.files_of 2 None)
           (Raise NoRowsError "no output files")).
  - reflexivity.
  - reflexivity.
Defined.

Lemma make_output_file_list_names_witness :
  ∃ output_files previews1024 previews256,
    Files.make_output_file_list Fixture.url_for Fixture.output_dir
      Fixture.files_of 1 (Some ["reduced"])
      = inr (output_files, previews1024, previews256)
    ∧ Files.name <$> output_files = Fixture.recorded.
Proof.
  destruct (make_output_file_list_names Fixture.url_for Fixture.output_dir
              Fixture.files_of 1 (Some ["reduced"]) Fixture.recorded)
    as (o & p1 & p2 & Hr & Hn & _).
  - reflexivity.
  - exists o, p1, p2. split; [exact Hr|exact Hn].
Defined.

Lemma file_info_url_witness :
  Files.url (Files.file_info Fixture.output_dir 1
               "s20140304_00012_reduced001.fits")
  = Some "file:///jcmtdata/output/1/s20140304_00012_reduced001.fits".
Proof.
  assert (∃ stem, "s20140304_00012_reduced001.fits" = stem +:+ ".fits")
    as Hstem by (exists "s20140304_00012_reduced001"; reflexivity).
  destruct (proj2 (proj1 (file_info_url Fixture.output_dir 1
                            "s20140304_00012_reduced001.fits")) Hstem)
    as [u Hu].
  rewrite Hu. f_equal.
  apply (proj1 (proj2 (file_info_url Fixture.output_dir 1
                         "s20140304_00012_reduced001.fits")) u Hu).
Defined.

Lemma file_info_mtype_witness :
  Files.mtype (Files.file_info Fixture.output_dir 1
                 "s20140304_00012-cat000001.fits")
  = Some "table.load.fits".
Proof.
  apply (proj1 (file_info_mtype Fixture.output_dir 1
                  "s20140304_00012-cat000001.fits"
                  "s20140304_00012-cat000001" eq_refl)).
  exists "s20140304_00012", "000001", ".fits". repeat split; reflexivity.
Defined.

Lemma make_output_file_list_previews_witness :
  ∃ o, Files.make_output_file_list Fixture.url_for Fixture.output_dir
         Fixture.files_of 1 (Some []) = inr (o, [], []).
Proof.
  apply (make_output_file_list_previews Fixture.url_for Fixture.output_dir
           Fixture.files_of 1 Fixture.recorded).
  reflexivity.
Defined.

Lemma routes_need_staff_password_witness :
  Routes.job_change_qa Fixture.staff_password Fixture.agrees Fixture.qa_name
    Fixture.iffy
    (Fixture.post [("qa_state", "G"); ("message", "fine"); ("url", "/job/7")]
       (Some (Routes.mkAuth "graham" "guess")))
    Fixture.nothing_yet
  = (inr (Routes.mkResponse 401 "logout.html" (Some "/job/7")
            [("WWW-Authenticate", Routes.loginstring)]),
     Fixture.nothing_yet).
Proof.
  apply (routes_need_staff_password Fixture.staff_password Fixture.agrees
           Fixture.agrees Fixture.state_name Fixture.qa_name Fixture.iffy).
  intros a [= <-]. reflexivity.
Defined.

Lemma routes_refuse_incomplete_form_witness :
  Routes.job_change_qa Fixture.staff_password Fixture.agrees
    Fixture.qa_name Fixture.iffy
    (Fixture.post [("job_id", "7"); ("qa_state", "G")]
       (Some Fixture.operator))
    Fixture.nothing_yet
  = (inl (Routes.BadRequestKeyError "message"), Fixture.nothing_yet).
Proof.
  apply (proj1 (proj2 (routes_refuse_incomplete_form Fixture.staff_password
                         Fixture.agrees Fixture.agrees Fixture.state_name
                         Fixture.qa_name Fixture.iffy
                         (Fixture.post [("job_id", "7"); ("qa_state", "G")]
                            (Some Fixture.operator))
                         Fixture.operator eq_refl eq_refl
                         Fixture.nothing_yet))).
  - exists "G". reflexivity.
  - reflexivity.
Defined.

Lemma job_change_state_outcome_witness :
  ∃ outcome said,
    Routes.job_change_state Fixture.staff_password Fixture.refuses
      Fixture.state_name
      (Fixture.post [("newstate", "Q"); ("message", "again"); ("job_id", "7");
                     ("url", "/job/7")] (Some Fixture.operator))
      Fixture.nothing_yet
    = (inl outcome,
       Routes.mkTrail said
         [Routes.ChangeState ["7"] "Q" "again" "graham"]).
Proof.
  destruct (job_change_state_outcome Fixture.staff_password Fixture.refuses
              Fixture.state_name
              (Fixture.post [("newstate", "Q"); ("message", "again");
                             ("job_id", "7"); ("url", "/job/7")]
                 (Some Fixture.operator))
              Fixture.operator eq_refl eq_refl Fixture.nothing_yet
              "again" "/job/7" eq_refl eq_refl "Q" eq_refl)
    as (outcome & said & Hr & _).
  exists outcome, said. exact Hr.
Defined.

Lemma job_change_qa_always_redirects_witness :
  ∃ t', Routes.job_change_qa Fixture.staff_password Fixture.refuses
          Fixture.qa_name Fixture.iffy
          (Fixture.post [("qa_state", "B"); ("message", "striped");
                         ("job_id", "7"); ("url", "/job/7")]
             (Some Fixture.operator))
          Fixture.nothing_yet
        = (inl (Routes.HTTPRedirect "/job/7"), t').
Proof.
  destruct (job_change_qa_always_redirects Fixture.staff_password
              Fixture.refuses Fixture.qa_name Fixture.iffy
              (Fixture.post [("qa_state", "B"); ("message", "striped");
                             ("job_id", "7"); ("url", "/job/7")]
                 (Some Fixture.operator))
              Fixture.operator eq_refl eq_refl Fixture.nothing_yet
              "striped" "/job/7" eq_refl eq_refl "B" eq_refl)
    as (t' & Hr & _).
  - repeat constructor; eexists; reflexivity.
  - exists t'. exact Hr.
Defined.

Lemma job_change_qa_needs_message_witness :
  Routes.actions
    (Routes.job_change_qa Fixture.staff_password Fixture.agrees
       Fixture.qa_name Fixture.iffy
       (Fixture.post [("qa_state", "B"); ("message", ""); ("job_id", "7");
                      ("url", "/job/7")] (Some Fixture.operator))
       Fixture.nothing_yet).2 = [].
Proof.
  apply (proj1 (job_change_qa_needs_message Fixture.staff_password
                  Fixture.agrees Fixture.qa_name Fixture.iffy
                  (Fixture.post [("qa_state", "B"); ("message", "");
                                 ("job_id", "7"); ("url", "/job/7")]
                     (Some Fixture.operator))
                  Fixture.operator eq_refl eq_refl Fixture.nothing_yet
                  "" "/job/7" eq_refl eq_refl "B" eq_refl
                  ltac:(repeat constructor; eexists; reflexivity))).
  split; [reflexivity|]. apply list_elem_of_In. cbn. tauto.
Defined.

Lemma job_change_qa_report_witness :
  Routes.flashed
    (Routes.job_change_qa Fixture.staff_password Fixture.refuses
       Fixture.qa_name Fixture.iffy
       (Fixture.post [("qa_state", "G"); ("message", ""); ("job_id", "7");
                      ("url", "/job/7")] (Some Fixture.operator))
       Fixture.nothing_yet).2
  = ["UNSUCCESSFUL attempt to update qa status!"].
Proof.
  apply (job_change_qa_report Fixture.staff_password Fixture.refuses
           Fixture.qa_name Fixture.iffy
           (Fixture.post [("qa_state", "G"); ("message", ""); ("job_id", "7");
                          ("url", "/job/7")] (Some Fixture.operator))
           Fixture.operator eq_refl eq_refl Fixture.nothing_yet
           "" "/job/7" eq_refl eq_refl "G" eq_refl).
  - right. intros Hin. apply list_elem_of_In in Hin. cbn in Hin.
    destruct Hin as [Hin|[Hin|[]]]; discriminate Hin.
  - left. eexists. reflexivity.
Defined.

Lemma job_list_query_param_witness :
  Routes.job_list_query ["instrument"]
    [("task", ""); ("instrument", "SCUBA-2")] !! "task" = Some Py.VNone.
Proof.
  apply (job_list_query_param ["instrument"]
           [("task", ""); ("instrument", "SCUBA-2")] "task").
  apply list_elem_of_In. cbn. tauto.
Defined.

Lemma job_list_query_mode_state_witness :
  Routes.job_list_query ["instrument"] [("mode", "")] !! "mode"
  = Some Py.VNone.
Proof.
  apply (job_list_query_mode_state ["instrument"] [("mode", "")]).
  - intros Hin. apply list_elem_of_In in Hin. cbn in Hin.
    destruct Hin as [Hin|[]]. discriminate Hin.
  - intros Hin. apply list_elem_of_In in Hin. cbn in Hin.
    destruct Hin as [Hin|[]]. discriminate Hin.
Defined.

Lemma OMPDB_init_write_access_witness :
  OMP.OMPDB_init (λ _ _ key, key) (λ _ _ _, inr "connection")
    (Py.VStr "staff")
  = inl (Raise (OtherError "NameError") "name 'JSAProcError' is not defined").
Proof.
  apply (OMPDB_init_write_access (λ _ _ key, key)
           (λ _ _ _, inr "connection")).
  intros Hin. apply list_elem_of_In in Hin. cbn in Hin.
  destruct Hin as [Hin|[Hin|[Hin|[]]]]; discriminate Hin.
Defined.

Lemma date_slices_witness :
  RawIngest.slice 0 4 "20140304" +:+ RawIngest.slice 4 6 "20140304"
  +:+ RawIngest.slice_from 6 "20140304" = "20140304".
Proof.
  apply (date_slices "scuba2_00012_20140304T051516" "20140304").
  vm_compute. reflexivity.
Defined.


Lemma ingest_log_location_witness :
  ∃ base,
    RawIngest.get_misc_log_dir Sample.failing_jsaraw "rawingest" = inr base
    ∧ "/jcmtdata/log/rawingest/2014/03/04/scuba2_00012_20140304T051516.log"
      = RawIngest.log_dir_of base "20140304"
        +:+ "/" +:+ "scuba2_00012_20140304T051516" +:+ ".log".
Proof.
  assert (RawIngest.obsid_date_search "scuba2_00012_20140304T051516"
          = Some "20140304") as Hdate by (vm_compute; reflexivity).
  assert (EvOpen
            "/jcmtdata/log/rawingest/2014/03/04/scuba2_00012_20140304T051516.log"
          ∈ new_calls Sample.world
              (RawIngest.ingest_raw_observation Sample.failing_jsaraw
                 "scuba2_00012_20140304T051516" false Sample.world).2)
    as Hopen.
  { vm_compute. apply list_elem_of_In. cbn. tauto. }
  destruct (ingest_log_location Sample.failing_jsaraw
              "scuba2_00012_20140304T051516" "20140304" Sample.world _
              Hdate Hopen) as (base & Hbase & _ & Hrel & _).
  exists base. split; [exact Hbase|]. apply Hrel. reflexivity.
Defined.

Lemma pipeline_only_for_claimed_job_witness :
  path_exists Sample.quiet "/jcmtdata/input/1/input_files_job.lis" = true.
Proof.
  destruct (pipeline_only_for_claimed_job Sample.quiet 1 false Sample.world
              1%nat 1 "/jcmtdata/input/1/input_files_job.lis" "night"
              "REDUCE_SCAN") as (_ & _ & _ & Hp & _).
  - vm_compute. reflexivity.
  - exact Hp.
Defined.

Lemma second_run_is_turned_away_witness :
  (run_a_job Sample.quiet 1 false
     (run_a_job Sample.quiet 1 false Sample.world).2).1 = inr None.
Proof.
  rewrite (second_run_is_turned_away Sample.quiet 1 false Sample.world).
  - reflexivity.
  - intros d. reflexivity.
Defined.
